(** * ARM SysTick system-clock driver (arch/arm/timer/systick.c)

    A shallow embedding of the driver and of the part of the machine it
    drives: the three SysTick registers, the driver's static variables and
    the kernel variables the driver reads and writes.  Every C function of
    the driver is a Rocq function on an explicit machine state; the build
    options that select code with [#ifdef] are fields of a [config].  The
    latency benchmark of the handler writes a variable of its own and is
    left out, and [_ExcExit] is the return from the exception. *)

From Stdlib Require Import ZArith List Bool Lia.
Import ListNotations.
Local Open Scope Z_scope.

(** ** Machine integers

    [uint32_t] and [int32_t] values are integers of [Z]; every operation of
    the source that can leave the range is followed by the conversion that C
    applies. *)

Definition two31 : Z := 2147483648.
Definition two32 : Z := 4294967296.

Definition is_uint32 (z : Z) : Prop := 0 <= z < two32.
Definition is_int32 (z : Z) : Prop := - two31 <= z < two31.

(** Conversion to [uint32_t]: reduction modulo 2^32. *)
Definition to_uint32 (z : Z) : Z := z mod two32.

(** Conversion to [int32_t]: the two's complement reading of the low 32 bits. *)
Definition to_int32 (z : Z) : Z :=
  let u := to_uint32 z in if u <? two31 then u else u - two32.

(** ** Faults

    The driver has two ways not to return: the boot-time assertion and an
    integer division whose divisor is zero. *)

Inductive fault : Type :=
| ASSERT_FAILED
| DIV_BY_ZERO.

Inductive result (A : Type) : Type :=
| Ok (a : A)
| Fault (f : fault).

Arguments Ok {A} a.
Arguments Fault {A} f.

Definition bind {A B : Type} (c : result A) (k : A -> result B) : result B :=
  match c with
  | Ok a => k a
  | Fault f => Fault f
  end.

Notation "x <- c ;; k" := (bind c (fun x => k))
  (at level 61, c at next level, right associativity).

(** Unsigned division and remainder of C: undefined on a zero divisor. *)
Definition udiv (a b : Z) : result Z :=
  if b =? 0 then Fault DIV_BY_ZERO else Ok (a / b).

Definition umod (a b : Z) : result Z :=
  if b =? 0 then Fault DIV_BY_ZERO else Ok (a mod b).

(** ** Machine state *)

(** The SysTick block of the system control space: control and status
    register, reload value register, current value register. *)
Record systick : Type := {
  stcsr : Z;
  strvr : Z;
  stcvr : Z
}.

Inductive timer_mode : Type :=
| TIMER_MODE_PERIODIC
| TIMER_MODE_ONE_SHOT.

Inductive idle_mode : Type :=
| IDLE_NOT_TICKLESS
| IDLE_TICKLESS.

(** The driver's file-scope variables. *)
Record statics : Type := {
  accumulatedCount : Z;
  defaultLoadVal : Z;
  idleOrigCount : Z;
  maxSysTicks : Z;
  idleOrigTicks : Z;
  maxLoadValue : Z;
  timerIdleSkew : Z;
  timerMode : timer_mode;
  idleMode : idle_mode
}.

Inductive event : Type :=
| TICK_EVENT.

(** A nanokernel timer: ticks left, the lifo it reports to, its datum. *)
Record nano_timer : Type := {
  ticks : Z;
  lifo : Z;
  userData : Z
}.

(** The kernel variables the driver shares with the rest of the system. *)
Record kernel : Type := {
  sys_clock_hw_cycles_per_tick : Z;
  _SysIdleElapsedTicks : Z;
  K_Args : list event;
  _NanoIdleVal : Z;
  primask : bool;
  _nano_ticks : Z;
  _nano_timer_list : list nano_timer;
  lifo_data : list (Z * Z)
}.

Record state : Type := {
  scs : systick;
  drv : statics;
  kern : kernel
}.

(** Build options of the driver. *)
Record config : Type := {
  CONFIG_TICKLESS_IDLE : bool;
  CONFIG_ADVANCED_POWER_MANAGEMENT : bool;
  CONFIG_MICROKERNEL : bool
}.

(** *** Field updates *)

Definition set_stcsr (v : Z) (s : state) : state :=
  {| scs := {| stcsr := v; strvr := strvr (scs s); stcvr := stcvr (scs s) |};
     drv := drv s; kern := kern s |}.

Definition set_strvr (v : Z) (s : state) : state :=
  {| scs := {| stcsr := stcsr (scs s); strvr := v; stcvr := stcvr (scs s) |};
     drv := drv s; kern := kern s |}.

Definition set_stcvr (v : Z) (s : state) : state :=
  {| scs := {| stcsr := stcsr (scs s); strvr := strvr (scs s); stcvr := v |};
     drv := drv s; kern := kern s |}.

Definition with_drv (d : statics) (s : state) : state :=
  {| scs := scs s; drv := d; kern := kern s |}.

Definition with_kern (k : kernel) (s : state) : state :=
  {| scs := scs s; drv := drv s; kern := k |}.

Definition set_accumulatedCount (v : Z) (s : state) : state :=
  let d := drv s in
  with_drv {| accumulatedCount := v; defaultLoadVal := defaultLoadVal d;
              idleOrigCount := idleOrigCount d; maxSysTicks := maxSysTicks d;
              idleOrigTicks := idleOrigTicks d; maxLoadValue := maxLoadValue d;
              timerIdleSkew := timerIdleSkew d; timerMode := timerMode d;
              idleMode := idleMode d |} s.

Definition set_defaultLoadVal (v : Z) (s : state) : state :=
  let d := drv s in
  with_drv {| accumulatedCount := accumulatedCount d; defaultLoadVal := v;
              idleOrigCount := idleOrigCount d; maxSysTicks := maxSysTicks d;
              idleOrigTicks := idleOrigTicks d; maxLoadValue := maxLoadValue d;
              timerIdleSkew := timerIdleSkew d; timerMode := timerMode d;
              idleMode := idleMode d |} s.

Definition set_idleOrigCount (v : Z) (s : state) : state :=
  let d := drv s in
  with_drv {| accumulatedCount := accumulatedCount d;
              defaultLoadVal := defaultLoadVal d;
              idleOrigCount := v; maxSysTicks := maxSysTicks d;
              idleOrigTicks := idleOrigTicks d; maxLoadValue := maxLoadValue d;
              timerIdleSkew := timerIdleSkew d; timerMode := timerMode d;
              idleMode := idleMode d |} s.

Definition set_maxSysTicks (v : Z) (s : state) : state :=
  let d := drv s in
  with_drv {| accumulatedCount := accumulatedCount d;
              defaultLoadVal := defaultLoadVal d;
              idleOrigCount := idleOrigCount d; maxSysTicks := v;
              idleOrigTicks := idleOrigTicks d; maxLoadValue := maxLoadValue d;
              timerIdleSkew := timerIdleSkew d; timerMode := timerMode d;
              idleMode := idleMode d |} s.

Definition set_idleOrigTicks (v : Z) (s : state) : state :=
  let d := drv s in
  with_drv {| accumulatedCount := accumulatedCount d;
              defaultLoadVal := defaultLoadVal d;
              idleOrigCount := idleOrigCount d; maxSysTicks := maxSysTicks d;
              idleOrigTicks := v; maxLoadValue := maxLoadValue d;
              timerIdleSkew := timerIdleSkew d; timerMode := timerMode d;
              idleMode := idleMode d |} s.

Definition set_maxLoadValue (v : Z) (s : state) : state :=
  let d := drv s in
  with_drv {| accumulatedCount := accumulatedCount d;
              defaultLoadVal := defaultLoadVal d;
              idleOrigCount := idleOrigCount d; maxSysTicks := maxSysTicks d;
              idleOrigTicks := idleOrigTicks d; maxLoadValue := v;
              timerIdleSkew := timerIdleSkew d; timerMode := timerMode d;
              idleMode := idleMode d |} s.

Definition set_timerIdleSkew (v : Z) (s : state) : state :=
  let d := drv s in
  with_drv {| accumulatedCount := accumulatedCount d;
              defaultLoadVal := defaultLoadVal d;
              idleOrigCount := idleOrigCount d; maxSysTicks := maxSysTicks d;
              idleOrigTicks := idleOrigTicks d; maxLoadValue := maxLoadValue d;
              timerIdleSkew := v; timerMode := timerMode d;
              idleMode := idleMode d |} s.

Definition set_timerMode (v : timer_mode) (s : state) : state :=
  let d := drv s in
  with_drv {| accumulatedCount := accumulatedCount d;
              defaultLoadVal := defaultLoadVal d;
              idleOrigCount := idleOrigCount d; maxSysTicks := maxSysTicks d;
              idleOrigTicks := idleOrigTicks d; maxLoadValue := maxLoadValue d;
              timerIdleSkew := timerIdleSkew d; timerMode := v;
              idleMode := idleMode d |} s.

Definition set_idleMode (v : idle_mode) (s : state) : state :=
  let d := drv s in
  with_drv {| accumulatedCount := accumulatedCount d;
              defaultLoadVal := defaultLoadVal d;
              idleOrigCount := idleOrigCount d; maxSysTicks := maxSysTicks d;
              idleOrigTicks := idleOrigTicks d; maxLoadValue := maxLoadValue d;
              timerIdleSkew := timerIdleSkew d; timerMode := timerMode d;
              idleMode := v |} s.

Definition set_SysIdleElapsedTicks (v : Z) (s : state) : state :=
  let k := kern s in
  with_kern {| sys_clock_hw_cycles_per_tick := sys_clock_hw_cycles_per_tick k;
               _SysIdleElapsedTicks := v; K_Args := K_Args k;
               _NanoIdleVal := _NanoIdleVal k; primask := primask k;
               _nano_ticks := _nano_ticks k;
               _nano_timer_list := _nano_timer_list k;
               lifo_data := lifo_data k |} s.

Definition set_K_Args (v : list event) (s : state) : state :=
  let k := kern s in
  with_kern {| sys_clock_hw_cycles_per_tick := sys_clock_hw_cycles_per_tick k;
               _SysIdleElapsedTicks := _SysIdleElapsedTicks k; K_Args := v;
               _NanoIdleVal := _NanoIdleVal k; primask := primask k;
               _nano_ticks := _nano_ticks k;
               _nano_timer_list := _nano_timer_list k;
               lifo_data := lifo_data k |} s.

Definition set_NanoIdleVal (v : Z) (s : state) : state :=
  let k := kern s in
  with_kern {| sys_clock_hw_cycles_per_tick := sys_clock_hw_cycles_per_tick k;
               _SysIdleElapsedTicks := _SysIdleElapsedTicks k;
               K_Args := K_Args k;
               _NanoIdleVal := v; primask := primask k;
               _nano_ticks := _nano_ticks k;
               _nano_timer_list := _nano_timer_list k;
               lifo_data := lifo_data k |} s.

Definition set_primask (v : bool) (s : state) : state :=
  let k := kern s in
  with_kern {| sys_clock_hw_cycles_per_tick := sys_clock_hw_cycles_per_tick k;
               _SysIdleElapsedTicks := _SysIdleElapsedTicks k;
               K_Args := K_Args k;
               _NanoIdleVal := _NanoIdleVal k; primask := v;
               _nano_ticks := _nano_ticks k;
               _nano_timer_list := _nano_timer_list k;
               lifo_data := lifo_data k |} s.

Definition set_nano_timers (n : Z) (l : list nano_timer) (d : list (Z * Z))
    (s : state) : state :=
  let k := kern s in
  with_kern {| sys_clock_hw_cycles_per_tick := sys_clock_hw_cycles_per_tick k;
               _SysIdleElapsedTicks := _SysIdleElapsedTicks k;
               K_Args := K_Args k;
               _NanoIdleVal := _NanoIdleVal k; primask := primask k;
               _nano_ticks := n;
               _nano_timer_list := l;
               lifo_data := d |} s.

(** ** The SysTick device

    The registers are declared in a header that is not among the sources.
    What the driver's own comments say of them is kept: a read of the control
    and status register clears the count flag ("countflag is cleared by this
    read"), and so does a write to the current value register ("also clears
    the countflag"), which clears that register whatever is written. *)

(** Modelled from the spec: the bit positions of [union __stcsr], in the
    order of the driver's initialisers ([enable], [tickint], [clksource],
    reserved, [countflag], reserved): the enable, interrupt-enable and
    clock-source bits of the control register, and the sticky flag that says
    that the counter wrapped to zero since the last read. *)
Definition ENABLE_BIT : Z := 0.
Definition TICKINT_BIT : Z := 1.
Definition CLKSOURCE_BIT : Z := 2.
Definition COUNTFLAG_BIT : Z := 16.

(** Modelled from the spec: [x = __scs.systick.stcsr.val], the value read
    and the machine after the read, which "clears its wrap flag as a side
    effect". *)
Definition stcsr_read (s : state) : Z * state :=
  (stcsr (scs s), set_stcsr (Z.clearbit (stcsr (scs s)) COUNTFLAG_BIT) s).

(** Modelled from the spec: [__scs.systick.stcsr.val = v]; the count flag is
    the device's and keeps its value. *)
Definition stcsr_write (v : Z) (s : state) : state :=
  set_stcsr (if Z.testbit (stcsr (scs s)) COUNTFLAG_BIT
             then Z.setbit v COUNTFLAG_BIT
             else Z.clearbit v COUNTFLAG_BIT) s.

(** [__scs.systick.strvr = v]. *)
Definition strvr_write (v : Z) (s : state) : state := set_strvr v s.

(** Modelled from the spec: [__scs.systick.stcvr = v], which "zeroes current
    and clears wrap flag". *)
Definition stcvr_write (v : Z) (s : state) : state :=
  set_stcvr 0 (set_stcsr (Z.clearbit (stcsr (scs s)) COUNTFLAG_BIT) s).

(** Modelled from the spec: the running counter has counted down to [c]
    without passing zero. *)
Definition hw_countdown (c : Z) (s : state) : state := set_stcvr c s.

(** Modelled from the spec: the counter has reached zero, and the wrap flag
    is set. *)
Definition hw_expire (s : state) : state :=
  set_stcvr 0 (set_stcsr (Z.setbit (stcsr (scs s)) COUNTFLAG_BIT) s).

(** Modelled from the spec: the counter has "reached zero and auto-reloaded"
    from the reload register, and the wrap flag is set. *)
Definition hw_wrap (s : state) : state :=
  set_stcvr (strvr (scs s))
    (set_stcsr (Z.setbit (stcsr (scs s)) COUNTFLAG_BIT) s).

(** ** The driver *)

(** [sysTickStop]: the enable and interrupt-enable bits of the value read are
    cleared and the value is written back. *)
Definition sysTickStop (s : state) : state :=
  let '(reg, s) := stcsr_read s in
  let reg := Z.clearbit reg ENABLE_BIT in
  let reg := Z.clearbit reg TICKINT_BIT in
  stcsr_write reg s.

(** [sysTickStart]. *)
Definition sysTickStart (s : state) : state :=
  let '(reg, s) := stcsr_read s in
  let reg := Z.setbit reg ENABLE_BIT in
  let reg := Z.setbit reg TICKINT_BIT in
  let reg := Z.setbit reg CLKSOURCE_BIT in
  stcsr_write reg s.

(** [sysTickCurrentGet]. *)
Definition sysTickCurrentGet (s : state) : Z := stcvr (scs s).

(** [sysTickReloadGet]. *)
Definition sysTickReloadGet (s : state) : Z := strvr (scs s).

(** [sysTickReloadSet]. *)
Definition sysTickReloadSet (count : Z) (s : state) : state :=
  stcvr_write 0 (strvr_write count s).

(** [nano_isr_stack_push(&K_Args, e)]. *)
Definition nano_isr_stack_push (e : event) (s : state) : state :=
  set_K_Args (e :: K_Args (kern s)) s.

(** [_timer_idle_enter]. *)
Definition _timer_idle_enter (ticks : Z) (s : state) : state :=
  let s := sysTickStop s in
  let s := set_idleOrigCount
             (to_uint32 (sysTickCurrentGet s - timerIdleSkew (drv s))) s in
  let s :=
    if (ticks =? -1) || (to_uint32 ticks >? maxSysTicks (drv s)) then
      let s := set_idleOrigCount
                 (to_uint32 (idleOrigCount (drv s)
                             + to_uint32 (maxLoadValue (drv s)
                                          - defaultLoadVal (drv s)))) s in
      set_idleOrigTicks (to_uint32 (maxSysTicks (drv s) - 1)) s
    else
      let s := set_idleOrigTicks (to_uint32 (ticks - 1)) s in
      set_idleOrigCount
        (to_uint32 (idleOrigCount (drv s)
                    + to_uint32 (idleOrigTicks (drv s)
                                 * defaultLoadVal (drv s)))) s in
  let s := set_timerMode TIMER_MODE_ONE_SHOT s in
  let s := set_idleMode IDLE_TICKLESS s in
  let s := sysTickReloadSet (idleOrigCount (drv s)) s in
  sysTickStart s.

(** The test [(count == 0) || (__scs.systick.stcsr.bit.countflag)] of
    [_timer_idle_exit]: the register is read only when [count] is not zero. *)
Definition expired_or_wrapped (count : Z) (s : state) : bool * state :=
  if count =? 0 then (true, s)
  else let '(reg, s) := stcsr_read s in (Z.testbit reg COUNTFLAG_BIT, s).

(** [_timer_idle_exit]. *)
Definition _timer_idle_exit (s : state) : result state :=
  match timerMode (drv s) with
  | TIMER_MODE_PERIODIC => Ok s
  | TIMER_MODE_ONE_SHOT =>
      let s := sysTickStop s in
      let count := sysTickCurrentGet s in
      let '(done, s) := expired_or_wrapped count s in
      s <- (if done then
              let s := sysTickReloadSet (defaultLoadVal (drv s)) s in
              let s := set_timerMode TIMER_MODE_PERIODIC s in
              let s := set_SysIdleElapsedTicks
                         (to_int32 (to_uint32 (idleOrigTicks (drv s) - 1))) s in
              Ok (nano_isr_stack_push TICK_EVENT s)
            else
              let elapsed := to_uint32 (idleOrigCount (drv s) - count) in
              remaining <- umod elapsed (defaultLoadVal (drv s)) ;;
              let s :=
                if remaining =? 0 then
                  set_timerMode TIMER_MODE_PERIODIC
                    (sysTickReloadSet (defaultLoadVal (drv s)) s)
                else if count >? remaining then
                  sysTickReloadSet remaining s
                else s in
              q <- udiv elapsed (defaultLoadVal (drv s)) ;;
              let s := set_SysIdleElapsedTicks (to_int32 q) s in
              Ok (if _SysIdleElapsedTicks (kern s) =? 0 then s
                  else nano_isr_stack_push TICK_EVENT s)) ;;
      Ok (sysTickStart (set_idleMode IDLE_NOT_TICKLESS s))
  end.

(** Modelled from the spec: [_SysPowerSaveIdleExit], the idle-exit
    notification of the power-management collaborator, which is not among the
    sources and "internally may call" [_timer_idle_exit]; [pm] says for which
    idle requests it does. *)
Definition _SysPowerSaveIdleExit (cfg : config) (pm : Z -> bool) (n : Z)
    (s : state) : result state :=
  if CONFIG_TICKLESS_IDLE cfg && pm n then _timer_idle_exit s else Ok s.

(** The expiry loop of the nanokernel-only handler: timers at the head of the
    list whose tick count is zero are unlinked and their datum is put on
    their lifo. *)
Fixpoint expire_nano_timers (l : list nano_timer) (d : list (Z * Z))
    : list nano_timer * list (Z * Z) :=
  match l with
  | [] => ([], d)
  | t :: l' =>
      if ticks t =? 0 then expire_nano_timers l' ((lifo t, userData t) :: d)
      else (l, d)
  end.

(** The nanokernel-only end of the handler: one more tick, and the head of
    the timer list counted down and expired. *)
Definition nano_tick (s : state) : state :=
  let k := kern s in
  let n := _nano_ticks k + 1 in
  match _nano_timer_list k with
  | [] => set_nano_timers n [] (lifo_data k) s
  | t :: l' =>
      let t' := {| ticks := to_uint32 (ticks t - 1); lifo := lifo t;
                   userData := userData t |} in
      let '(l, d) := expire_nano_timers (t' :: l') (lifo_data k) in
      set_nano_timers n l d s
  end.

(** The tickless-idle part of the handler. *)
Definition handler_tickless (s : state) : state :=
  let s :=
    match timerMode (drv s) with
    | TIMER_MODE_ONE_SHOT =>
        let s := sysTickStop s in
        let s := sysTickReloadSet (defaultLoadVal (drv s)) s in
        let s := sysTickStart s in
        set_timerMode TIMER_MODE_PERIODIC s
    | TIMER_MODE_PERIODIC => s
    end in
  let s :=
    match idleMode (drv s) with
    | IDLE_TICKLESS =>
        let s := set_idleMode IDLE_NOT_TICKLESS s in
        let s := set_SysIdleElapsedTicks
                   (to_int32 (to_uint32 (idleOrigTicks (drv s) + 1))) s in
        nano_isr_stack_push TICK_EVENT s
    | IDLE_NOT_TICKLESS =>
        let s := set_SysIdleElapsedTicks
                   (to_int32 (_SysIdleElapsedTicks (kern s) + 1)) s in
        if _SysIdleElapsedTicks (kern s) =? 1
        then nano_isr_stack_push TICK_EVENT s
        else s
    end in
  set_accumulatedCount
    (to_uint32 (accumulatedCount (drv s)
                + to_uint32 (defaultLoadVal (drv s)
                             * to_uint32 (_SysIdleElapsedTicks (kern s))))) s.

(** [accumulatedCount += sys_clock_hw_cycles_per_tick]. *)
Definition accumulate_tick (s : state) : state :=
  set_accumulatedCount
    (to_uint32 (accumulatedCount (drv s)
                + to_uint32 (sys_clock_hw_cycles_per_tick (kern s)))) s.

(** [_TIMER_INT_HANDLER]. *)
Definition _timer_int_handler (cfg : config) (pm : Z -> bool) (s : state)
    : result state :=
  if CONFIG_ADVANCED_POWER_MANAGEMENT cfg then
    let s := set_primask true s in
    let s :=
      if CONFIG_TICKLESS_IDLE cfg then handler_tickless s
      else nano_isr_stack_push TICK_EVENT (accumulate_tick s) in
    let numIdleTicks := _NanoIdleVal (kern s) in
    s <- (if numIdleTicks =? 0 then Ok s
          else _SysPowerSaveIdleExit cfg pm numIdleTicks
                 (set_NanoIdleVal 0 s)) ;;
    Ok (set_primask false s)
  else
    let s := accumulate_tick s in
    Ok (if CONFIG_MICROKERNEL cfg then nano_isr_stack_push TICK_EVENT s
        else nano_tick s).

(** The three reads of the running counter made while the skew is measured. *)
Record skew_samples : Type := {
  skew_start : Z;
  skew_dummy : Z;
  skew_end : Z
}.

(** [__scs.systick.stcsr.val |= v]. *)
Definition stcsr_or (v : Z) (s : state) : state :=
  let '(reg, s) := stcsr_read s in stcsr_write (Z.lor reg v) s.

(** [sysTickTicklessIdleInit]. *)
Definition sysTickTicklessIdleInit (hw : skew_samples) (s : state)
    : result state :=
  let stcsr_val := 5 in
  let s := set_defaultLoadVal (sysTickReloadGet s) s in
  m <- udiv 16777215 (defaultLoadVal (drv s)) ;;
  let s := set_maxSysTicks m s in
  let s := set_maxLoadValue
             (to_uint32 (maxSysTicks (drv s) * defaultLoadVal (drv s))) s in
  let s := stcsr_or stcsr_val s in
  let s := hw_countdown (skew_start hw) s in
  let s := set_timerIdleSkew (sysTickCurrentGet s) s in
  let s := stcsr_or stcsr_val s in
  let s := hw_countdown (skew_dummy hw) s in
  let dummy := sysTickCurrentGet s in
  let dummy :=
    if (dummy =? 1) || (dummy =? defaultLoadVal (drv s)) then
      to_uint32 (to_uint32 (maxSysTicks (drv s) - 1)
                 + to_uint32 (maxLoadValue (drv s) - defaultLoadVal (drv s)))
    else
      let dummy := to_uint32 (dummy - 1) in
      to_uint32 (dummy + to_uint32 (dummy * defaultLoadVal (drv s))) in
  let s := stcsr_or stcsr_val s in
  let s := set_timerMode TIMER_MODE_PERIODIC s in
  let s := hw_countdown (skew_end hw) s in
  let s := set_timerIdleSkew
             (to_uint32 (timerIdleSkew (drv s) - sysTickCurrentGet s)) s in
  let s := sysTickStop s in
  Ok (sysTickReloadSet (defaultLoadVal (drv s)) s).

(** Modelled from the spec: the [__ASSERT] macro, whose header is not among
    the sources; a failed assertion is the fatal configuration error of the
    spec, which "refuses to start". *)
Definition __ASSERT (test : bool) : result unit :=
  if test then Ok tt else Fault ASSERT_FAILED.

(** [timer_driver].  The registration of the tick handler and the priority
    of the exception act on the kernel and on the interrupt controller only
    and leave this state as it is. *)
Definition timer_driver (cfg : config) (hw : skew_samples) (s : state)
    : result state :=
  let stcsr_val := 7 in
  _ <- __ASSERT (sys_clock_hw_cycles_per_tick (kern s) <=? 16777216) ;;
  let s := sysTickReloadSet
             (to_uint32 (sys_clock_hw_cycles_per_tick (kern s) - 1)) s in
  s <- (if CONFIG_TICKLESS_IDLE cfg then sysTickTicklessIdleInit hw s
        else Ok s) ;;
  Ok (stcsr_write stcsr_val s).

(** [timer_read]. *)
Definition timer_read (s : state) : Z :=
  to_uint32 (accumulatedCount (drv s)
             + to_uint32 (strvr (scs s) - stcvr (scs s))).

(** [irq_lock] and [irq_unlock], on the interrupt mask. *)
Definition irq_lock (s : state) : bool * state :=
  (primask (kern s), set_primask true s).

Definition irq_unlock (key : bool) (s : state) : state := set_primask key s.

(** [timer_disable]. *)
Definition timer_disable (s : state) : state :=
  let '(key, s) := irq_lock s in
  let s := sysTickStop s in
  irq_unlock key s.

(** ** Auxiliary definitions of the development *)

(** The branch of [_timer_idle_enter] that programs the longest interval. *)
Definition clamps (ticks : Z) (s : state) : bool :=
  (ticks =? -1) || (to_uint32 ticks >? maxSysTicks (drv s)).

(** The state in which the handler of the tickless build returns. *)
Definition handler_tickless_exit (s : state) : state :=
  let s1 := handler_tickless (set_primask true s) in
  set_primask false
    (if _NanoIdleVal (kern s1) =? 0 then s1 else set_NanoIdleVal 0 s1).

Definition tickless_build : config :=
  {| CONFIG_TICKLESS_IDLE := true;
     CONFIG_ADVANCED_POWER_MANAGEMENT := true;
     CONFIG_MICROKERNEL := true |}.

Definition periodic_build : config :=
  {| CONFIG_TICKLESS_IDLE := false;
     CONFIG_ADVANCED_POWER_MANAGEMENT := false;
     CONFIG_MICROKERNEL := true |}.

(** The machine before [timer_driver] runs, for a given number of cycles per
    tick; the variables the driver does not initialise are zero here. *)
Definition reset_state (cycles : Z) : state :=
  {| scs := {| stcsr := 4; strvr := 0; stcvr := 0 |};
     drv := {| accumulatedCount := 0; defaultLoadVal := 0; idleOrigCount := 0;
               maxSysTicks := 0; idleOrigTicks := 0; maxLoadValue := 0;
               timerIdleSkew := 0; timerMode := TIMER_MODE_PERIODIC;
               idleMode := IDLE_NOT_TICKLESS |};
     kern := {| sys_clock_hw_cycles_per_tick := cycles;
                _SysIdleElapsedTicks := 0; K_Args := []; _NanoIdleVal := 0;
                primask := false; _nano_ticks := 0; _nano_timer_list := [];
                lifo_data := [] |} |}.

(** The tickless build configured for 1000 cycles per tick, with a measured
    skew of 12 cycles. *)
Definition configured_1000 : state :=
  {| scs := {| stcsr := 7; strvr := 999; stcvr := 0 |};
     drv := {| accumulatedCount := 0; defaultLoadVal := 999; idleOrigCount := 0;
               maxSysTicks := 16794; idleOrigTicks := 0;
               maxLoadValue := 16777206;
               timerIdleSkew := 12; timerMode := TIMER_MODE_PERIODIC;
               idleMode := IDLE_NOT_TICKLESS |};
     kern := kern (reset_state 1000) |}.

(** The tickless build configured for 4194304 cycles per tick: four ticks
    fit the 24-bit counter. *)
Definition configured_4194304 : state :=
  {| scs := {| stcsr := 7; strvr := 4194303; stcvr := 0 |};
     drv := {| accumulatedCount := 0; defaultLoadVal := 4194303;
               idleOrigCount := 0; maxSysTicks := 4; idleOrigTicks := 0;
               maxLoadValue := 16777212;
               timerIdleSkew := 12; timerMode := TIMER_MODE_PERIODIC;
               idleMode := IDLE_NOT_TICKLESS |};
     kern := kern (reset_state 4194304) |}.

(** A tick interrupt: the counter reaches zero and reloads, and the handler
    runs. *)
Definition tick_interrupt (cfg : config) (pm : Z -> bool) (s : state)
    : result state :=
  _timer_int_handler cfg pm (hw_wrap s).

Fixpoint tick_interrupts (cfg : config) (pm : Z -> bool) (k : nat) (s : state)
    : result state :=
  match k with
  | O => Ok s
  | S k' => s' <- tick_interrupts cfg pm k' s ;; tick_interrupt cfg pm s'
  end.

(** Modelled from the spec: the scheduler's tick sink, which is not among the
    sources; it takes the elapsed-tick report, which is "never stored beyond
    that hand-off". *)
Definition K_ticker (s : state) : state := set_SysIdleElapsedTicks 0 s.

(** Tick interrupts each of which is serviced by the scheduler before the
    next. *)
Fixpoint serviced_ticks (cfg : config) (pm : Z -> bool) (k : nat) (s : state)
    : result state :=
  match k with
  | O => Ok s
  | S k' =>
      s' <- serviced_ticks cfg pm k' s ;;
      s'' <- tick_interrupt cfg pm s' ;;
      Ok (K_ticker s'')
  end.

(** Whether the build announces ticks to the microkernel. *)
Definition announces (cfg : config) : bool :=
  CONFIG_ADVANCED_POWER_MANAGEMENT cfg || CONFIG_MICROKERNEL cfg.

Definition nanokernel_build : config :=
  {| CONFIG_TICKLESS_IDLE := false;
     CONFIG_ADVANCED_POWER_MANAGEMENT := false;
     CONFIG_MICROKERNEL := false |}.

(** A nanokernel machine with three timers pending: one tick left, none
    left, three left. *)
Definition three_timers : state :=
  set_nano_timers 0
    [ {| ticks := 1; lifo := 7; userData := 42 |};
      {| ticks := 0; lifo := 8; userData := 43 |};
      {| ticks := 3; lifo := 9; userData := 44 |} ]
    [] (reset_state 1000).

(** [1 + 2 + ... + k]. *)
Fixpoint sum_to (k : nat) : Z :=
  match k with
  | O => 0
  | S j => sum_to j + Z.of_nat (S j)
  end.

(** * Properties *)

(** ** Conversions *)

Lemma to_uint32_range (z : Z) : is_uint32 (to_uint32 z).
Proof. unfold is_uint32, to_uint32, two32. apply Z.mod_pos_bound. lia. Qed.

Lemma to_uint32_id (z : Z) : is_uint32 z -> to_uint32 z = z.
Proof. unfold is_uint32, to_uint32. intros H. apply Z.mod_small. exact H. Qed.

Lemma to_int32_id (z : Z) : is_int32 z -> to_int32 z = z.
Proof.
  unfold is_int32, to_int32, to_uint32, two31, two32. intros H.
  destruct (Z_lt_le_dec z 0) as [Hneg | Hpos].
  - replace (z mod 4294967296) with (z + 4294967296).
    + destruct (z + 4294967296 <? 2147483648) eqn:E.
      * apply Z.ltb_lt in E. lia.
      * lia.
    + apply Z.mod_unique with (q := -1); lia.
  - rewrite Z.mod_small by lia.
    destruct (z <? 2147483648) eqn:E.
    + reflexivity.
    + apply Z.ltb_ge in E. lia.
Qed.

Lemma to_int32_range (z : Z) : is_int32 (to_int32 z).
Proof.
  unfold to_int32. pose proof (to_uint32_range z) as H.
  unfold is_uint32, is_int32, two31, two32 in *.
  destruct (to_uint32 z <? 2147483648) eqn:E.
  - apply Z.ltb_lt in E. lia.
  - apply Z.ltb_ge in E. lia.
Qed.

Lemma to_uint32_idem (z : Z) : to_uint32 (to_uint32 z) = to_uint32 z.
Proof. apply to_uint32_id, to_uint32_range. Qed.

Lemma to_uint32_add_l (a b : Z) : to_uint32 (to_uint32 a + b) = to_uint32 (a + b).
Proof. unfold to_uint32. apply Zplus_mod_idemp_l. Qed.

Lemma to_uint32_add_r (a b : Z) : to_uint32 (a + to_uint32 b) = to_uint32 (a + b).
Proof. unfold to_uint32. apply Zplus_mod_idemp_r. Qed.

(** ** What [_timer_idle_enter] leaves behind *)

Lemma enter_kern (n : Z) (s : state) : kern (_timer_idle_enter n s) = kern s.
Proof.
  unfold _timer_idle_enter.
  destruct ((n =? -1) || _); reflexivity.
Qed.

Lemma enter_modes (n : Z) (s : state) :
  timerMode (drv (_timer_idle_enter n s)) = TIMER_MODE_ONE_SHOT /\
  idleMode (drv (_timer_idle_enter n s)) = IDLE_TICKLESS.
Proof.
  unfold _timer_idle_enter.
  destruct ((n =? -1) || _); split; reflexivity.
Qed.

Lemma enter_constants (n : Z) (s : state) :
  defaultLoadVal (drv (_timer_idle_enter n s)) = defaultLoadVal (drv s) /\
  maxSysTicks (drv (_timer_idle_enter n s)) = maxSysTicks (drv s) /\
  maxLoadValue (drv (_timer_idle_enter n s)) = maxLoadValue (drv s) /\
  timerIdleSkew (drv (_timer_idle_enter n s)) = timerIdleSkew (drv s) /\
  accumulatedCount (drv (_timer_idle_enter n s)) = accumulatedCount (drv s).
Proof.
  unfold _timer_idle_enter.
  destruct ((n =? -1) || _); repeat split; reflexivity.
Qed.

Lemma enter_idleOrigTicks (n : Z) (s : state) :
  idleOrigTicks (drv (_timer_idle_enter n s)) =
  if clamps n s then to_uint32 (maxSysTicks (drv s) - 1)
  else to_uint32 (n - 1).
Proof.
  unfold _timer_idle_enter, clamps.
  change (maxSysTicks (drv (set_idleOrigCount _ (sysTickStop s))))
    with (maxSysTicks (drv s)).
  destruct ((n =? -1) || _); reflexivity.
Qed.

Lemma enter_idleOrigCount (n : Z) (s : state) :
  idleOrigCount (drv (_timer_idle_enter n s)) =
  if clamps n s then
    to_uint32 (to_uint32 (stcvr (scs s) - timerIdleSkew (drv s))
               + to_uint32 (maxLoadValue (drv s) - defaultLoadVal (drv s)))
  else
    to_uint32 (to_uint32 (stcvr (scs s) - timerIdleSkew (drv s))
               + to_uint32 (to_uint32 (n - 1) * defaultLoadVal (drv s))).
Proof.
  unfold _timer_idle_enter, clamps.
  change (maxSysTicks (drv (set_idleOrigCount _ (sysTickStop s))))
    with (maxSysTicks (drv s)).
  destruct ((n =? -1) || _); reflexivity.
Qed.

Lemma enter_registers (n : Z) (s : state) :
  strvr (scs (_timer_idle_enter n s)) = idleOrigCount (drv (_timer_idle_enter n s)) /\
  stcvr (scs (_timer_idle_enter n s)) = 0.
Proof.
  unfold _timer_idle_enter.
  destruct ((n =? -1) || _); split; reflexivity.
Qed.

Lemma clamps_false_in_range (n : Z) (s : state) :
  is_int32 n -> 1 <= n <= maxSysTicks (drv s) ->
  clamps n s = false.
Proof.
  unfold clamps, is_int32, two31. intros Hn Hr.
  rewrite to_uint32_id by (unfold is_uint32, two32; lia).
  apply orb_false_iff. split.
  - apply Z.eqb_neq. lia.
  - rewrite Z.gtb_ltb. apply Z.ltb_ge. lia.
Qed.

(** ** The interrupt handler of the tickless build *)

Lemma handler_tickless_mode (s : state) :
  timerMode (drv (handler_tickless s)) = TIMER_MODE_PERIODIC.
Proof.
  unfold handler_tickless.
  destruct (timerMode (drv s)) eqn:Hm; destruct (idleMode (drv s)) eqn:Hi;
    cbn; rewrite ?Hi; cbn;
    try destruct (to_int32 (_SysIdleElapsedTicks (kern s) + 1) =? 1);
    cbn; try rewrite Hm; reflexivity.
Qed.

(** Once the handler has restored the periodic mode, the idle-exit
    notification finds nothing to reconcile. *)
Lemma power_save_exit_after_handler (cfg : config) (pm : Z -> bool) (n : Z)
    (s : state) :
  timerMode (drv s) = TIMER_MODE_PERIODIC ->
  _SysPowerSaveIdleExit cfg pm n s = Ok s.
Proof.
  intros Hm. unfold _SysPowerSaveIdleExit, _timer_idle_exit. rewrite Hm.
  destruct (CONFIG_TICKLESS_IDLE cfg && pm n); reflexivity.
Qed.

Lemma handler_tickless_build (cfg : config) (pm : Z -> bool) (s : state) :
  CONFIG_TICKLESS_IDLE cfg = true ->
  CONFIG_ADVANCED_POWER_MANAGEMENT cfg = true ->
  _timer_int_handler cfg pm s = Ok (handler_tickless_exit s).
Proof.
  intros Ht Ha. unfold _timer_int_handler, handler_tickless_exit.
  rewrite Ha, Ht.
  set (s1 := handler_tickless (set_primask true s)).
  destruct (_NanoIdleVal (kern s1) =? 0).
  - reflexivity.
  - rewrite power_save_exit_after_handler.
    + reflexivity.
    + apply (handler_tickless_mode (set_primask true s)).
Qed.

Lemma handler_tickless_exit_drv (s : state) :
  drv (handler_tickless_exit s) = drv (handler_tickless (set_primask true s)).
Proof.
  unfold handler_tickless_exit.
  destruct (_NanoIdleVal (kern (handler_tickless (set_primask true s))) =? 0);
    reflexivity.
Qed.

Lemma handler_tickless_exit_scs (s : state) :
  scs (handler_tickless_exit s) = scs (handler_tickless (set_primask true s)).
Proof.
  unfold handler_tickless_exit.
  destruct (_NanoIdleVal (kern (handler_tickless (set_primask true s))) =? 0);
    reflexivity.
Qed.

Lemma handler_tickless_exit_report (s : state) :
  _SysIdleElapsedTicks (kern (handler_tickless_exit s)) =
  _SysIdleElapsedTicks (kern (handler_tickless (set_primask true s))) /\
  K_Args (kern (handler_tickless_exit s)) =
  K_Args (kern (handler_tickless (set_primask true s))).
Proof.
  unfold handler_tickless_exit.
  destruct (_NanoIdleVal (kern (handler_tickless (set_primask true s))) =? 0);
    split; reflexivity.
Qed.

(** The handler on a completed tickless idle. *)
Lemma handler_tickless_idle (s : state) :
  idleMode (drv s) = IDLE_TICKLESS ->
  _SysIdleElapsedTicks (kern (handler_tickless s)) =
    to_int32 (to_uint32 (idleOrigTicks (drv s) + 1)) /\
  K_Args (kern (handler_tickless s)) = TICK_EVENT :: K_Args (kern s) /\
  idleMode (drv (handler_tickless s)) = IDLE_NOT_TICKLESS.
Proof.
  intros Hi. unfold handler_tickless.
  destruct (timerMode (drv s)); cbn; rewrite Hi; cbn; repeat split; reflexivity.
Qed.

(** The handler on an ordinary tick. *)
Lemma handler_tickless_periodic (s : state) :
  idleMode (drv s) = IDLE_NOT_TICKLESS ->
  _SysIdleElapsedTicks (kern (handler_tickless s)) =
    to_int32 (_SysIdleElapsedTicks (kern s) + 1) /\
  K_Args (kern (handler_tickless s)) =
    (if to_int32 (_SysIdleElapsedTicks (kern s) + 1) =? 1
     then TICK_EVENT :: K_Args (kern s) else K_Args (kern s)) /\
  idleMode (drv (handler_tickless s)) = IDLE_NOT_TICKLESS.
Proof.
  intros Hi. unfold handler_tickless.
  destruct (timerMode (drv s)); cbn; rewrite Hi; cbn;
    destruct (to_int32 (_SysIdleElapsedTicks (kern s) + 1) =? 1);
    repeat split; assumption || reflexivity.
Qed.

Lemma handler_tickless_one_shot (s : state) :
  timerMode (drv s) = TIMER_MODE_ONE_SHOT ->
  strvr (scs (handler_tickless s)) = defaultLoadVal (drv s) /\
  stcvr (scs (handler_tickless s)) = 0 /\
  defaultLoadVal (drv (handler_tickless s)) = defaultLoadVal (drv s).
Proof.
  intros Hm. unfold handler_tickless. rewrite Hm.
  destruct (idleMode (drv s)) eqn:Hi; cbn; rewrite Hi; cbn.
  - destruct (to_int32 (_SysIdleElapsedTicks (kern s) + 1) =? 1);
      repeat split; reflexivity.
  - repeat split; reflexivity.
Qed.

Example configured_1000_reached :
  timer_driver tickless_build
    {| skew_start := 990; skew_dummy := 984; skew_end := 978 |}
    (reset_state 1000) = Ok configured_1000.
Proof. vm_compute. reflexivity. Qed.

(** ** Idle entry followed by the natural expiry *)

Lemma hw_expire_frame (s : state) :
  drv (hw_expire s) = drv s /\ kern (hw_expire s) = kern s.
Proof. split; reflexivity. Qed.

(** C1.  For [1 <= n <= maxSysTicks - 1], entering idle for [n] ticks and
    letting the programmed interval expire (count at zero, count flag set)
    makes the interrupt handler report exactly [n] elapsed ticks and return
    the timer to the periodic mode with the default reload value. *)
Theorem idle_enter_expiry_roundtrip (cfg : config) (pm : Z -> bool)
    (s : state) (n : Z) :
  CONFIG_TICKLESS_IDLE cfg = true ->
  CONFIG_ADVANCED_POWER_MANAGEMENT cfg = true ->
  is_int32 n ->
  1 <= n <= maxSysTicks (drv s) - 1 ->
  exists s',
    _timer_int_handler cfg pm (hw_expire (_timer_idle_enter n s)) = Ok s' /\
    _SysIdleElapsedTicks (kern s') = n /\
    timerMode (drv s') = TIMER_MODE_PERIODIC /\
    defaultLoadVal (drv s') = defaultLoadVal (drv s) /\
    sysTickReloadGet s' = defaultLoadVal (drv s).
Proof.
  intros Ht Ha Hn Hr.
  rewrite (handler_tickless_build cfg pm _ Ht Ha).
  eexists. split; [reflexivity |].
  set (s1 := set_primask true (hw_expire (_timer_idle_enter n s))).
  assert (Hd : drv s1 = drv (_timer_idle_enter n s)) by reflexivity.
  destruct (enter_modes n s) as [Hmode Hidle].
  destruct (enter_constants n s) as [Hdef _].
  pose proof (enter_idleOrigTicks n s) as Hticks.
  rewrite (clamps_false_in_range n s Hn) in Hticks by lia.
  rewrite <- Hd in Hmode, Hidle, Hdef, Hticks.
  destruct (handler_tickless_idle s1 Hidle) as [Hrep _].
  destruct (handler_tickless_one_shot s1 Hmode) as [Hrl [_ Hdl]].
  destruct (handler_tickless_exit_report (hw_expire (_timer_idle_enter n s)))
    as [Hrep' _].
  fold s1 in Hrep'.
  unfold sysTickReloadGet.
  rewrite handler_tickless_exit_drv, handler_tickless_exit_scs. fold s1.
  rewrite Hrep', Hrep, Hticks, Hrl, Hdl, Hdef.
  split; [| split; [| split]].
  - unfold is_int32, two31 in Hn.
    rewrite (to_uint32_id (n - 1)) by (unfold is_uint32, two32; lia).
    replace (n - 1 + 1) with n by lia.
    rewrite to_uint32_id by (unfold is_uint32, two32; lia).
    apply to_int32_id. unfold is_int32, two31. lia.
  - apply handler_tickless_mode.
  - reflexivity.
  - reflexivity.
Qed.

Lemma idle_enter_expiry_roundtrip_witness :
  exists s',
    _timer_int_handler tickless_build (fun _ => true)
      (hw_expire (_timer_idle_enter 5 configured_1000)) = Ok s' /\
    _SysIdleElapsedTicks (kern s') = 5 /\
    timerMode (drv s') = TIMER_MODE_PERIODIC /\
    defaultLoadVal (drv s') = defaultLoadVal (drv configured_1000) /\
    sysTickReloadGet s' = defaultLoadVal (drv configured_1000).
Proof.
  apply (idle_enter_expiry_roundtrip tickless_build (fun _ => true)
           configured_1000 5).
  - reflexivity.
  - reflexivity.
  - unfold is_int32, two31. lia.
  - simpl. lia.
Defined.

(** ** What the handler announces *)

Lemma incremented_to_one (e : Z) :
  is_int32 e -> (to_int32 (e + 1) =? 1) = (e =? 0).
Proof.
  unfold is_int32, two31. intros He.
  destruct (Z.eq_dec e 2147483647) as [-> | Hne].
  - reflexivity.
  - rewrite to_int32_id by (unfold is_int32, two31; lia).
    destruct (Z.eqb_spec (e + 1) 1), (Z.eqb_spec e 0); lia || reflexivity.
Qed.

(** C4.  In the tickless build the handler, on a completed tickless idle,
    reports [idleOrigTicks + 1] elapsed ticks, clears the idle mode and
    announces exactly one tick event; on any other interrupt it adds one to
    the elapsed-tick count and announces a tick event exactly when that count
    goes from zero to one.  The two range hypotheses say that the sums fit
    the [int32_t] report. *)
Theorem handler_announce_discipline (cfg : config) (pm : Z -> bool)
    (s : state) :
  CONFIG_TICKLESS_IDLE cfg = true ->
  CONFIG_ADVANCED_POWER_MANAGEMENT cfg = true ->
  (idleMode (drv s) = IDLE_TICKLESS ->
   0 <= idleOrigTicks (drv s) < two31 - 1) ->
  (idleMode (drv s) = IDLE_NOT_TICKLESS ->
   - two31 <= _SysIdleElapsedTicks (kern s) < two31 - 1) ->
  exists s',
    _timer_int_handler cfg pm s = Ok s' /\
    idleMode (drv s') = IDLE_NOT_TICKLESS /\
    match idleMode (drv s) with
    | IDLE_TICKLESS =>
        _SysIdleElapsedTicks (kern s') = idleOrigTicks (drv s) + 1 /\
        K_Args (kern s') = TICK_EVENT :: K_Args (kern s)
    | IDLE_NOT_TICKLESS =>
        _SysIdleElapsedTicks (kern s') = _SysIdleElapsedTicks (kern s) + 1 /\
        K_Args (kern s') =
          (if _SysIdleElapsedTicks (kern s) =? 0
           then TICK_EVENT :: K_Args (kern s) else K_Args (kern s))
    end.
Proof.
  intros Ht Ha Hidle Hper.
  rewrite (handler_tickless_build cfg pm s Ht Ha).
  eexists. split; [reflexivity |].
  destruct (handler_tickless_exit_report s) as [Hrep Hk].
  rewrite handler_tickless_exit_drv, Hrep, Hk.
  set (s1 := set_primask true s).
  destruct (idleMode (drv s)) eqn:Hi.
  - assert (Hi1 : idleMode (drv s1) = IDLE_NOT_TICKLESS) by exact Hi.
    destruct (handler_tickless_periodic s1 Hi1) as [He [Hq Hm]].
    specialize (Hper eq_refl). unfold two31 in Hper.
    rewrite He, Hq, Hm.
    change (_SysIdleElapsedTicks (kern s1)) with (_SysIdleElapsedTicks (kern s)).
    change (K_Args (kern s1)) with (K_Args (kern s)).
    rewrite incremented_to_one by (unfold is_int32, two31; lia).
    rewrite to_int32_id by (unfold is_int32, two31; lia).
    repeat split; reflexivity.
  - assert (Hi1 : idleMode (drv s1) = IDLE_TICKLESS) by exact Hi.
    destruct (handler_tickless_idle s1 Hi1) as [He [Hq Hm]].
    specialize (Hidle eq_refl). unfold two31 in Hidle.
    rewrite He, Hq, Hm.
    change (idleOrigTicks (drv s1)) with (idleOrigTicks (drv s)).
    change (K_Args (kern s1)) with (K_Args (kern s)).
    rewrite to_uint32_id by (unfold is_uint32, two32; lia).
    rewrite to_int32_id by (unfold is_int32, two31; lia).
    repeat split; reflexivity.
Qed.

Lemma handler_announce_discipline_witness :
  exists s',
    _timer_int_handler tickless_build (fun _ => true)
      (hw_expire (_timer_idle_enter 5 configured_1000)) = Ok s' /\
    idleMode (drv s') = IDLE_NOT_TICKLESS /\
    _SysIdleElapsedTicks (kern s') = 4 + 1 /\
    K_Args (kern s') = [TICK_EVENT].
Proof.
  apply (handler_announce_discipline tickless_build (fun _ => true)
           (hw_expire (_timer_idle_enter 5 configured_1000))).
  - reflexivity.
  - reflexivity.
  - intros _. vm_compute. split; discriminate || reflexivity.
  - intros H. vm_compute in H. discriminate H.
Defined.

(** ** Clamping of the idle request *)

(** C5.  Every request above [maxSysTicks] leaves the machine in the very
    state a request of [-1] leaves it in: the stored tick count is
    [maxSysTicks - 1], and the origin count is the skew-adjusted current
    count plus [maxLoadValue - defaultLoadVal], in 32-bit arithmetic. *)
Theorem idle_enter_clamp (s : state) (ticks : Z) :
  is_int32 ticks ->
  1 <= maxSysTicks (drv s) < two32 ->
  maxSysTicks (drv s) < ticks ->
  _timer_idle_enter ticks s = _timer_idle_enter (-1) s /\
  idleOrigTicks (drv (_timer_idle_enter ticks s)) = maxSysTicks (drv s) - 1 /\
  idleOrigCount (drv (_timer_idle_enter ticks s)) =
    to_uint32 (to_uint32 (stcvr (scs s) - timerIdleSkew (drv s))
               + (maxLoadValue (drv s) - defaultLoadVal (drv s))).
Proof.
  unfold is_int32, two31, two32. intros Ht Hm Hgt.
  assert (Hc : clamps ticks s = true).
  { unfold clamps. rewrite to_uint32_id by (unfold is_uint32, two32; lia).
    apply orb_true_iff. right. rewrite Z.gtb_ltb. apply Z.ltb_lt. lia. }
  split; [| split].
  - unfold _timer_idle_enter. unfold clamps in Hc.
    change (maxSysTicks (drv (set_idleOrigCount
              (to_uint32 (sysTickCurrentGet (sysTickStop s)
                          - timerIdleSkew (drv (sysTickStop s))))
              (sysTickStop s))))
      with (maxSysTicks (drv s)).
    rewrite Hc. reflexivity.
  - rewrite enter_idleOrigTicks, Hc.
    apply to_uint32_id. unfold is_uint32, two32. lia.
  - rewrite enter_idleOrigCount, Hc. apply to_uint32_add_r.
Qed.

Lemma idle_enter_clamp_witness :
  _timer_idle_enter (16794 + 5) configured_1000
    = _timer_idle_enter (-1) configured_1000 /\
  idleOrigTicks (drv (_timer_idle_enter (16794 + 5) configured_1000))
    = 16794 - 1 /\
  idleOrigCount (drv (_timer_idle_enter (16794 + 5) configured_1000))
    = to_uint32 (to_uint32 (0 - 12) + (16777206 - 999)).
Proof.
  apply (idle_enter_clamp configured_1000 (16794 + 5)).
  - unfold is_int32, two31. lia.
  - unfold two32. simpl. lia.
  - simpl. lia.
Defined.

(** C6 fails for a request of zero ticks, which is not clamped: the stored
    tick count becomes [0 - 1] in 32-bit arithmetic. *)
Lemma idle_enter_zero_out_of_range :
  idleOrigTicks (drv (_timer_idle_enter 0 configured_1000)) = 4294967295 /\
  ~ (0 <= idleOrigTicks (drv (_timer_idle_enter 0 configured_1000))
       <= maxSysTicks (drv configured_1000) - 1).
Proof.
  split.
  - vm_compute. reflexivity.
  - vm_compute. intros [_ H]. apply H. reflexivity.
Qed.

(** C6, amended.  [_timer_idle_enter] is total, and for every [int32_t]
    request other than zero the stored tick count lies between [0] and
    [maxSysTicks - 1]. *)
Theorem idle_enter_sanitizes (s : state) (ticks : Z) :
  is_int32 ticks ->
  ticks <> 0 ->
  1 <= maxSysTicks (drv s) < two32 ->
  0 <= idleOrigTicks (drv (_timer_idle_enter ticks s))
    <= maxSysTicks (drv s) - 1.
Proof.
  unfold is_int32, two31, two32. intros Ht Hnz Hm.
  rewrite enter_idleOrigTicks.
  destruct (clamps ticks s) eqn:Hc.
  - rewrite to_uint32_id by (unfold is_uint32, two32; lia). lia.
  - unfold clamps in Hc. apply orb_false_iff in Hc. destruct Hc as [Hne Hle].
    apply Z.eqb_neq in Hne. rewrite Z.gtb_ltb in Hle. apply Z.ltb_ge in Hle.
    destruct (Z_lt_le_dec ticks 0) as [Hneg | Hpos].
    + assert (Hu : to_uint32 ticks = ticks + 4294967296).
      { unfold to_uint32, two32. symmetry.
        apply Z.mod_unique with (q := -1); lia. }
      assert (Hv : to_uint32 (ticks - 1) = ticks - 1 + 4294967296).
      { unfold to_uint32, two32. symmetry.
        apply Z.mod_unique with (q := -1); lia. }
      rewrite Hu in Hle. rewrite Hv. lia.
    + rewrite to_uint32_id in Hle by (unfold is_uint32, two32; lia).
      rewrite to_uint32_id by (unfold is_uint32, two32; lia). lia.
Qed.

Lemma idle_enter_sanitizes_witness :
  0 <= idleOrigTicks (drv (_timer_idle_enter (-7) configured_1000))
    <= maxSysTicks (drv configured_1000) - 1.
Proof.
  apply (idle_enter_sanitizes configured_1000 (-7)).
  - unfold is_int32, two31. lia.
  - lia.
  - unfold two32. simpl. lia.
Defined.

(** ** Idle exit before the interval has expired *)

(** [sysTickStop] reads the control and status register, so the count flag
    is down when it returns. *)
Lemma stop_countflag (s : state) :
  Z.testbit (stcsr (scs (sysTickStop s))) COUNTFLAG_BIT = false.
Proof.
  unfold sysTickStop, stcsr_read, stcsr_write.
  cbn [fst snd scs stcsr set_stcsr].
  rewrite Z.clearbit_eq. apply Z.clearbit_eq.
Qed.

(** [_timer_idle_exit] in the one-shot mode, with a count that is not zero. *)
Lemma idle_exit_running (s : state) :
  timerMode (drv s) = TIMER_MODE_ONE_SHOT ->
  stcvr (scs s) <> 0 ->
  defaultLoadVal (drv s) <> 0 ->
  let elapsed := to_uint32 (idleOrigCount (drv s) - stcvr (scs s)) in
  let remaining := elapsed mod defaultLoadVal (drv s) in
  let report := to_int32 (elapsed / defaultLoadVal (drv s)) in
  exists s',
    _timer_idle_exit s = Ok s' /\
    _SysIdleElapsedTicks (kern s') = report /\
    timerMode (drv s') =
      (if remaining =? 0 then TIMER_MODE_PERIODIC else TIMER_MODE_ONE_SHOT) /\
    strvr (scs s') =
      (if remaining =? 0 then defaultLoadVal (drv s)
       else if stcvr (scs s) >? remaining then remaining
       else strvr (scs s)) /\
    K_Args (kern s') =
      (if report =? 0 then K_Args (kern s) else TICK_EVENT :: K_Args (kern s)) /\
    idleMode (drv s') = IDLE_NOT_TICKLESS.
Proof.
  intros Hm Hc Hd elapsed remaining report.
  unfold _timer_idle_exit. rewrite Hm.
  unfold expired_or_wrapped.
  change (sysTickCurrentGet (sysTickStop s)) with (stcvr (scs s)).
  rewrite (proj2 (Z.eqb_neq _ _) Hc).
  unfold stcsr_read. rewrite stop_countflag.
  cbv beta iota zeta.
  set (s2 := set_stcsr _ (sysTickStop s)).
  change (drv s2) with (drv s).
  unfold umod, udiv. rewrite (proj2 (Z.eqb_neq _ _) Hd).
  cbn [bind]. fold elapsed. fold remaining.
  destruct (remaining =? 0).
  - change (defaultLoadVal (drv (set_timerMode _ _)))
      with (defaultLoadVal (drv s)).
    rewrite (proj2 (Z.eqb_neq _ _) Hd). cbn [bind]. fold report.
    eexists. split; [reflexivity |].
    destruct (_SysIdleElapsedTicks _ =? 0) eqn:E;
      change (report =? 0)
        with (_SysIdleElapsedTicks
                (kern (set_SysIdleElapsedTicks report
                         (set_timerMode TIMER_MODE_PERIODIC
                            (sysTickReloadSet (defaultLoadVal (drv s)) s2))))
              =? 0);
      rewrite E; repeat split; reflexivity.
  - destruct (stcvr (scs s) >? remaining).
    + change (defaultLoadVal (drv (sysTickReloadSet remaining s2)))
        with (defaultLoadVal (drv s)).
      rewrite (proj2 (Z.eqb_neq _ _) Hd). cbn [bind]. fold report.
      eexists. split; [reflexivity |].
      destruct (_SysIdleElapsedTicks _ =? 0) eqn:E;
        change (report =? 0)
          with (_SysIdleElapsedTicks
                  (kern (set_SysIdleElapsedTicks report
                           (sysTickReloadSet remaining s2))) =? 0);
        rewrite E; repeat split; try reflexivity; exact Hm.
    + change (defaultLoadVal (drv s2)) with (defaultLoadVal (drv s)).
      rewrite (proj2 (Z.eqb_neq _ _) Hd). cbn [bind]. fold report.
      eexists. split; [reflexivity |].
      destruct (_SysIdleElapsedTicks _ =? 0) eqn:E;
        change (report =? 0)
          with (_SysIdleElapsedTicks
                  (kern (set_SysIdleElapsedTicks report s2)) =? 0);
        rewrite E; repeat split; try reflexivity; exact Hm.
Qed.

Example configured_4194304_reached :
  timer_driver tickless_build
    {| skew_start := 4194290; skew_dummy := 4194284; skew_end := 4194278 |}
    (reset_state 4194304) = Ok configured_4194304.
Proof. vm_compute. reflexivity. Qed.

(** C2 fails when the count left is not above the remainder: with four
    ticks per interval, idle entered at count 1012 programs 12583909 cycles;
    at count 100 the elapsed time is three ticks and 900 cycles, three ticks
    are reported, the mode stays one-shot, and the reload register keeps
    the value programmed at entry. *)
Lemma idle_exit_reload_not_reprogrammed :
  let s1 := hw_countdown 100
              (_timer_idle_enter 10 (hw_countdown 1012 configured_4194304)) in
  to_uint32 (idleOrigCount (drv s1) - 100)
    = 3 * defaultLoadVal (drv configured_4194304) + 900 /\
  0 < 900 < defaultLoadVal (drv configured_4194304) /\
  exists s',
    _timer_idle_exit s1 = Ok s' /\
    _SysIdleElapsedTicks (kern s') = 3 /\
    timerMode (drv s') = TIMER_MODE_ONE_SHOT /\
    sysTickReloadGet s' = 12583909 /\
    sysTickReloadGet s' <> 900.
Proof.
  cbv zeta. split; [vm_compute; reflexivity |].
  split; [simpl; lia |].
  eexists. split; [vm_compute; reflexivity |].
  repeat split; try reflexivity. vm_compute. discriminate.
Qed.

(** C2, amended.  After [_timer_idle_enter 10], an exit at a count with
    [elapsed = 3 * defaultLoadVal + r], [0 < r < defaultLoadVal], reports
    exactly three ticks and stays in the one-shot mode; the reload register
    is reprogrammed to [r] when the count is above [r], and keeps the value
    programmed at entry otherwise. *)
Theorem idle_exit_early_interruption (s : state) (count r : Z) :
  count <> 0 ->
  0 < r < defaultLoadVal (drv s) ->
  to_uint32 (idleOrigCount (drv (_timer_idle_enter 10 s)) - count)
    = 3 * defaultLoadVal (drv s) + r ->
  exists s',
    _timer_idle_exit (hw_countdown count (_timer_idle_enter 10 s)) = Ok s' /\
    _SysIdleElapsedTicks (kern s') = 3 /\
    K_Args (kern s') = TICK_EVENT :: K_Args (kern s) /\
    timerMode (drv s') = TIMER_MODE_ONE_SHOT /\
    sysTickReloadGet s' =
      (if count >? r then r
       else idleOrigCount (drv (_timer_idle_enter 10 s))).
Proof.
  intros Hc Hr He.
  set (s1 := hw_countdown count (_timer_idle_enter 10 s)).
  destruct (enter_modes 10 s) as [Hmode _].
  destruct (enter_constants 10 s) as [Hdef _].
  destruct (enter_registers 10 s) as [Hrl _].
  assert (Hd1 : drv s1 = drv (_timer_idle_enter 10 s)) by reflexivity.
  assert (Hc1 : stcvr (scs s1) = count) by reflexivity.
  assert (Hr1 : strvr (scs s1) = strvr (scs (_timer_idle_enter 10 s)))
    by reflexivity.
  assert (Hk1 : kern s1 = kern s) by (apply (enter_kern 10 s)).
  destruct (idle_exit_running s1) as [s' [Hx [Hrep [Hm [Hs [Hk _]]]]]].
  - rewrite Hd1. exact Hmode.
  - rewrite Hc1. exact Hc.
  - rewrite Hd1, Hdef. lia.
  - rewrite Hd1, Hc1, Hr1, Hrl, Hdef, He in *.
    assert (Hq : (3 * defaultLoadVal (drv s) + r) / defaultLoadVal (drv s) = 3).
    { symmetry. apply Z.div_unique with (r := r); lia. }
    assert (Hmod : (3 * defaultLoadVal (drv s) + r) mod defaultLoadVal (drv s)
                   = r).
    { symmetry. apply Z.mod_unique with (q := 3); lia. }
    rewrite Hq in Hrep, Hk. rewrite Hmod in Hm, Hs.
    assert (Hrz : (r =? 0) = false) by (apply Z.eqb_neq; lia).
    rewrite Hrz in Hm, Hs. rewrite Hk1 in Hk.
    exists s'. repeat split; assumption.
Qed.

Lemma idle_exit_early_interruption_witness :
  exists s',
    _timer_idle_exit
      (hw_countdown 6382
         (_timer_idle_enter 10 (hw_countdown 500 configured_1000))) = Ok s' /\
    _SysIdleElapsedTicks (kern s') = 3 /\
    K_Args (kern s') = [TICK_EVENT] /\
    timerMode (drv s') = TIMER_MODE_ONE_SHOT /\
    sysTickReloadGet s' = 100.
Proof.
  apply (idle_exit_early_interruption (hw_countdown 500 configured_1000)
           6382 100).
  - discriminate.
  - simpl. lia.
  - vm_compute. reflexivity.
Defined.

(** X1.  When the request of ten ticks is not clamped and the measured skew is at
    most four ticks ahead of the count read at entry, the count left at such
    an exit is always above the remainder, and the reload register is
    reprogrammed. *)
Lemma early_exit_count_above_remainder (s : state) (count r : Z) :
  10 <= maxSysTicks (drv s) ->
  - 4 * defaultLoadVal (drv s) <= stcvr (scs s) - timerIdleSkew (drv s) ->
  stcvr (scs s) - timerIdleSkew (drv s) + 9 * defaultLoadVal (drv s) < two32 ->
  0 < r < defaultLoadVal (drv s) ->
  0 <= count <= idleOrigCount (drv (_timer_idle_enter 10 s)) ->
  to_uint32 (idleOrigCount (drv (_timer_idle_enter 10 s)) - count)
    = 3 * defaultLoadVal (drv s) + r ->
  (count >? r) = true.
Proof.
  unfold two32. intros Hmax Hlo Hhi Hr Hc He.
  rewrite enter_idleOrigCount in He, Hc.
  rewrite clamps_false_in_range in He, Hc
    by (unfold is_int32, two31; lia).
  change (to_uint32 (10 - 1)) with 9 in He, Hc.
  rewrite to_uint32_add_l, to_uint32_add_r in He, Hc.
  rewrite (to_uint32_id (_ + _)) in He, Hc by (unfold is_uint32, two32; lia).
  rewrite to_uint32_id in He by (unfold is_uint32, two32; lia).
  rewrite Z.gtb_ltb. apply Z.ltb_lt. lia.
Qed.

Lemma early_exit_count_above_remainder_witness :
  (6382 >? 100) = true.
Proof.
  apply (early_exit_count_above_remainder
           (hw_countdown 500 configured_1000) 6382 100).
  - simpl. lia.
  - simpl. lia.
  - unfold two32. simpl. lia.
  - simpl. lia.
  - vm_compute. split; discriminate.
  - vm_compute. reflexivity.
Defined.

(** ** Idle exit in the periodic mode *)

(** C9.  In the periodic mode [_timer_idle_exit] returns at once and leaves
    the whole state as it is; two exits in a row are two such returns. *)
Theorem idle_exit_periodic_noop (s : state) :
  timerMode (drv s) = TIMER_MODE_PERIODIC ->
  _timer_idle_exit s = Ok s /\
  (s' <- _timer_idle_exit s ;; _timer_idle_exit s') = Ok s.
Proof.
  intros Hm.
  assert (H : _timer_idle_exit s = Ok s).
  { unfold _timer_idle_exit. rewrite Hm. reflexivity. }
  split.
  - exact H.
  - rewrite H. cbn [bind]. exact H.
Qed.

Lemma idle_exit_periodic_noop_witness :
  _timer_idle_exit configured_1000 = Ok configured_1000 /\
  (s' <- _timer_idle_exit configured_1000 ;; _timer_idle_exit s')
    = Ok configured_1000.
Proof.
  apply (idle_exit_periodic_noop configured_1000). reflexivity.
Defined.

(** ** Reading the accumulator *)

(** C8.  While the counter counts down from the reload value, [timer_read]
    is the accumulated count plus the cycles counted since the reload, as a
    32-bit sum: it is that sum reduced modulo 2^32, and the sum itself when
    the sum fits 32 bits.  The read is a function of the state and stores
    nothing. *)
Theorem timer_read_formula (s : state) :
  is_uint32 (accumulatedCount (drv s)) ->
  is_uint32 (strvr (scs s)) ->
  0 <= stcvr (scs s) <= strvr (scs s) ->
  timer_read s
    = to_uint32 (accumulatedCount (drv s) + (strvr (scs s) - stcvr (scs s))) /\
  (accumulatedCount (drv s) + (strvr (scs s) - stcvr (scs s)) < two32 ->
   timer_read s
     = accumulatedCount (drv s) + (strvr (scs s) - stcvr (scs s))).
Proof.
  unfold is_uint32. intros Ha Hr Hc.
  assert (H : timer_read s
              = to_uint32 (accumulatedCount (drv s)
                           + (strvr (scs s) - stcvr (scs s)))).
  { unfold timer_read. apply to_uint32_add_r. }
  split.
  - exact H.
  - intros Hfit. rewrite H. apply to_uint32_id. unfold is_uint32. lia.
Qed.

Lemma timer_read_formula_witness :
  timer_read (hw_countdown 100 configured_1000)
    = to_uint32 (0 + (999 - 100)) /\
  (0 + (999 - 100) < two32 ->
   timer_read (hw_countdown 100 configured_1000) = 0 + (999 - 100)).
Proof.
  apply (timer_read_formula (hw_countdown 100 configured_1000)).
  - unfold is_uint32, two32. simpl. lia.
  - unfold is_uint32, two32. simpl. lia.
  - simpl. lia.
Defined.

(** ** Stopping the timer *)

Lemma stop_stcsr (s : state) :
  stcsr (scs (sysTickStop s)) =
  Z.clearbit
    (Z.clearbit (Z.clearbit (stcsr (scs s)) ENABLE_BIT) TICKINT_BIT)
    COUNTFLAG_BIT.
Proof.
  unfold sysTickStop, stcsr_read, stcsr_write.
  cbn [fst snd scs stcsr set_stcsr].
  rewrite Z.clearbit_eq. reflexivity.
Qed.

Lemma stop_frame (s : state) :
  strvr (scs (sysTickStop s)) = strvr (scs s) /\
  stcvr (scs (sysTickStop s)) = stcvr (scs s) /\
  drv (sysTickStop s) = drv s /\
  kern (sysTickStop s) = kern s.
Proof. repeat split; reflexivity. Qed.

Lemma stop_eq (s : state) :
  sysTickStop s =
  set_stcsr
    (Z.clearbit
       (Z.clearbit (Z.clearbit (stcsr (scs s)) ENABLE_BIT) TICKINT_BIT)
       COUNTFLAG_BIT) s.
Proof.
  unfold sysTickStop, stcsr_read, stcsr_write.
  cbn [fst snd scs stcsr set_stcsr].
  rewrite Z.clearbit_eq. reflexivity.
Qed.

Lemma stop_idempotent (s : state) : sysTickStop (sysTickStop s) = sysTickStop s.
Proof.
  rewrite (stop_eq (sysTickStop s)), (stop_eq s).
  unfold set_stcsr. cbn [scs stcsr strvr stcvr drv kern].
  f_equal. f_equal.
  apply Z.bits_inj'. intros n _.
  rewrite !Z.clearbit_eqb.
  destruct (Z.testbit (stcsr (scs s)) n),
    (ENABLE_BIT =? n), (TICKINT_BIT =? n), (COUNTFLAG_BIT =? n);
    reflexivity.
Qed.

(** C10 fails on the count flag: the read with which [sysTickStop] starts
    clears it, so after a wrap of the counter the register changes in a bit
    other than the two enable bits. *)
Lemma stop_clears_countflag :
  Z.testbit (stcsr (scs (hw_wrap configured_1000))) COUNTFLAG_BIT = true /\
  Z.testbit (stcsr (scs (sysTickStop (hw_wrap configured_1000))))
    COUNTFLAG_BIT = false /\
  Z.testbit (stcsr (scs (timer_disable (hw_wrap configured_1000))))
    COUNTFLAG_BIT = false.
Proof. repeat split; vm_compute; reflexivity. Qed.

(** C10, amended.  [sysTickStop] and [timer_disable] clear the enable and
    the interrupt-enable bit of the control and status register; the clock
    source and every other bit but the count flag are as before, the count
    flag is down, and nothing else of the machine changes.  Both are
    idempotent. *)
Theorem timer_disable_frame (s : state) :
  timer_disable s = sysTickStop s /\
  Z.testbit (stcsr (scs (sysTickStop s))) ENABLE_BIT = false /\
  Z.testbit (stcsr (scs (sysTickStop s))) TICKINT_BIT = false /\
  Z.testbit (stcsr (scs (sysTickStop s))) COUNTFLAG_BIT = false /\
  Z.testbit (stcsr (scs (sysTickStop s))) CLKSOURCE_BIT
    = Z.testbit (stcsr (scs s)) CLKSOURCE_BIT /\
  (forall n : Z,
      n <> ENABLE_BIT -> n <> TICKINT_BIT -> n <> COUNTFLAG_BIT ->
      Z.testbit (stcsr (scs (sysTickStop s))) n
        = Z.testbit (stcsr (scs s)) n) /\
  strvr (scs (sysTickStop s)) = strvr (scs s) /\
  stcvr (scs (sysTickStop s)) = stcvr (scs s) /\
  drv (sysTickStop s) = drv s /\
  kern (sysTickStop s) = kern s /\
  timer_disable (timer_disable s) = timer_disable s.
Proof.
  assert (Hd : forall t, timer_disable t = sysTickStop t).
  { intros [[c r v] d [a b e f g h i j]]. reflexivity. }
  assert (Hbits : forall n : Z,
             n <> ENABLE_BIT -> n <> TICKINT_BIT -> n <> COUNTFLAG_BIT ->
             Z.testbit (stcsr (scs (sysTickStop s))) n
               = Z.testbit (stcsr (scs s)) n).
  { intros n H0 H1 H16. rewrite stop_stcsr.
    rewrite !Z.clearbit_neq by congruence. reflexivity. }
  split; [apply Hd |].
  split; [rewrite stop_stcsr, !Z.clearbit_eqb; cbn;
          apply andb_false_r || (rewrite andb_false_r; reflexivity) |].
  split; [rewrite stop_stcsr, !Z.clearbit_eqb; cbn;
          rewrite andb_false_r; reflexivity |].
  split; [apply stop_countflag |].
  split; [apply Hbits; discriminate |].
  split; [exact Hbits |].
  split; [reflexivity |].
  split; [reflexivity |].
  split; [reflexivity |].
  split; [reflexivity |].
  rewrite !Hd. apply stop_idempotent.
Qed.

Lemma timer_disable_frame_witness :
  timer_disable (timer_disable (hw_wrap configured_1000))
    = timer_disable (hw_wrap configured_1000).
Proof.
  apply (timer_disable_frame (hw_wrap configured_1000)).
Defined.

(** ** The count flag at idle exit *)




(** ** Configuration *)

Lemma tickless_init_ok (hw : skew_samples) (s : state) :
  strvr (scs s) <> 0 ->
  exists s',
    sysTickTicklessIdleInit hw s = Ok s' /\
    strvr (scs s') = strvr (scs s) /\
    stcvr (scs s') = 0 /\
    defaultLoadVal (drv s') = strvr (scs s) /\
    maxSysTicks (drv s') = 16777215 / strvr (scs s) /\
    accumulatedCount (drv s') = accumulatedCount (drv s) /\
    timerMode (drv s') = TIMER_MODE_PERIODIC /\
    kern s' = kern s.
Proof.
  intros Hr. unfold sysTickTicklessIdleInit.
  change (defaultLoadVal (drv (set_defaultLoadVal (sysTickReloadGet s) s)))
    with (strvr (scs s)).
  unfold udiv. rewrite (proj2 (Z.eqb_neq _ _) Hr). cbn [bind].
  eexists. split; [reflexivity |].
  repeat split; reflexivity.
Qed.


(** C7 fails for one cycle per tick when tickless idle is built in: the
    reload value is zero and the initialisation of tickless idle divides
    by it. *)
Lemma timer_driver_one_cycle_per_tick :
  1 <= sys_clock_hw_cycles_per_tick (kern (reset_state 1)) <= 16777216 /\
  forall hw : skew_samples,
    timer_driver tickless_build hw (reset_state 1) = Fault DIV_BY_ZERO.
Proof.
  split.
  - simpl. lia.
  - intros hw. reflexivity.
Qed.

(** C7, amended.  For every number of cycles per tick from 1 to 2^24, one
    cycle per tick with tickless idle built in apart, [timer_driver] returns
    and leaves the reload register at that number minus one and the current
    count at zero; for every number above 2^24 it stops at the assertion. *)
Theorem timer_driver_bounds (cfg : config) (hw : skew_samples) (s : state) :
  1 <= sys_clock_hw_cycles_per_tick (kern s) ->
  (CONFIG_TICKLESS_IDLE cfg = true ->
   sys_clock_hw_cycles_per_tick (kern s) <> 1) ->
  if sys_clock_hw_cycles_per_tick (kern s) <=? 16777216 then
    exists s',
      timer_driver cfg hw s = Ok s' /\
      sysTickReloadGet s' = sys_clock_hw_cycles_per_tick (kern s) - 1 /\
      sysTickCurrentGet s' = 0
  else
    timer_driver cfg hw s = Fault ASSERT_FAILED.
Proof.
  intros Hlo Hone. unfold timer_driver, __ASSERT.
  destruct (sys_clock_hw_cycles_per_tick (kern s) <=? 16777216) eqn:Hle;
    cbn [bind]; [| reflexivity].
  apply Z.leb_le in Hle.
  assert (Hu : to_uint32 (sys_clock_hw_cycles_per_tick (kern s) - 1)
               = sys_clock_hw_cycles_per_tick (kern s) - 1).
  { apply to_uint32_id. unfold is_uint32, two32. lia. }
  rewrite Hu.
  set (s1 := sysTickReloadSet (sys_clock_hw_cycles_per_tick (kern s) - 1) s).
  destruct (CONFIG_TICKLESS_IDLE cfg) eqn:Ht.
  - specialize (Hone eq_refl).
    destruct (tickless_init_ok hw s1) as [s2 [Hi [Hr [Hc _]]]].
    { change (strvr (scs s1))
        with (sys_clock_hw_cycles_per_tick (kern s) - 1). lia. }
    rewrite Hi. cbn [bind]. eexists. split; [reflexivity |].
    split.
    + unfold sysTickReloadGet.
      change (strvr (scs (stcsr_write 7 s2))) with (strvr (scs s2)).
      rewrite Hr. reflexivity.
    + unfold sysTickCurrentGet.
      change (stcvr (scs (stcsr_write 7 s2))) with (stcvr (scs s2)).
      exact Hc.
  - cbn [bind]. eexists. split; [reflexivity |]. split; reflexivity.
Qed.

Lemma timer_driver_bounds_witness :
  exists s',
    timer_driver tickless_build
      {| skew_start := 990; skew_dummy := 984; skew_end := 978 |}
      (reset_state 1000) = Ok s' /\
    sysTickReloadGet s' = 1000 - 1 /\
    sysTickCurrentGet s' = 0.
Proof.
  apply (timer_driver_bounds tickless_build
           {| skew_start := 990; skew_dummy := 984; skew_end := 978 |}
           (reset_state 1000)).
  - simpl. lia.
  - intros _. simpl. discriminate.
Defined.

Example timer_driver_above_range :
  timer_driver tickless_build
    {| skew_start := 990; skew_dummy := 984; skew_end := 978 |}
    (reset_state 16777217) = Fault ASSERT_FAILED.
Proof. reflexivity. Qed.

(** ** Periodic ticks *)

Lemma nano_tick_frame (s : state) :
  scs (nano_tick s) = scs s /\ drv (nano_tick s) = drv s /\
  K_Args (kern (nano_tick s)) = K_Args (kern s) /\
  sys_clock_hw_cycles_per_tick (kern (nano_tick s))
    = sys_clock_hw_cycles_per_tick (kern s).
Proof.
  unfold nano_tick.
  destruct (_nano_timer_list (kern s)) as [| t l].
  - repeat split; reflexivity.
  - destruct (expire_nano_timers _ _) as [l' d']. repeat split; reflexivity.
Qed.

(** The handler of a build without tickless idle. *)
Lemma handler_periodic_build (cfg : config) (pm : Z -> bool) (s : state) :
  CONFIG_TICKLESS_IDLE cfg = false ->
  exists s',
    _timer_int_handler cfg pm s = Ok s' /\
    scs s' = scs s /\
    accumulatedCount (drv s') =
      to_uint32 (accumulatedCount (drv s)
                 + to_uint32 (sys_clock_hw_cycles_per_tick (kern s))) /\
    sys_clock_hw_cycles_per_tick (kern s')
      = sys_clock_hw_cycles_per_tick (kern s) /\
    K_Args (kern s') =
      (if announces cfg then TICK_EVENT :: K_Args (kern s)
       else K_Args (kern s)).
Proof.
  intros Ht. unfold _timer_int_handler, announces.
  destruct (CONFIG_ADVANCED_POWER_MANAGEMENT cfg).
  - rewrite Ht. cbn [orb].
    set (s2 := nano_isr_stack_push TICK_EVENT
                 (accumulate_tick (set_primask true s))).
    destruct (_NanoIdleVal (kern s2) =? 0).
    + cbn [bind]. eexists. split; [reflexivity |]. repeat split; reflexivity.
    + unfold _SysPowerSaveIdleExit. rewrite Ht. cbn [andb bind].
      eexists. split; [reflexivity |]. repeat split; reflexivity.
  - cbn [orb]. destruct (CONFIG_MICROKERNEL cfg).
    + eexists. split; [reflexivity |]. repeat split; reflexivity.
    + eexists. split; [reflexivity |].
      destruct (nano_tick_frame (accumulate_tick s)) as [Hs [Hd [Hk Hc]]].
      rewrite Hs, Hd, Hk, Hc. repeat split; reflexivity.
Qed.

Lemma tick_interrupts_periodic (cfg : config) (pm : Z -> bool) (k : nat)
    (s : state) :
  CONFIG_TICKLESS_IDLE cfg = false ->
  is_uint32 (accumulatedCount (drv s)) ->
  exists sk,
    tick_interrupts cfg pm k s = Ok sk /\
    strvr (scs sk) = strvr (scs s) /\
    ((0 < k)%nat -> stcvr (scs sk) = strvr (scs s)) /\
    accumulatedCount (drv sk) =
      to_uint32 (accumulatedCount (drv s)
                 + Z.of_nat k * sys_clock_hw_cycles_per_tick (kern s)) /\
    sys_clock_hw_cycles_per_tick (kern sk)
      = sys_clock_hw_cycles_per_tick (kern s) /\
    K_Args (kern sk) =
      (if announces cfg then repeat TICK_EVENT k ++ K_Args (kern s)
       else K_Args (kern s)).
Proof.
  intros Ht Hacc. induction k as [| k IH].
  - exists s. split; [reflexivity |]. split; [reflexivity |].
    split; [intros H; inversion H |].
    split.
    + cbn [Z.of_nat]. rewrite Z.mul_0_l, Z.add_0_r.
      symmetry. apply to_uint32_id. exact Hacc.
    + split; [reflexivity |]. destruct (announces cfg); reflexivity.
  - destruct IH as [sk [Hrun [Hr [_ [Ha [Hc Hk]]]]]].
    destruct (handler_periodic_build cfg pm (hw_wrap sk) Ht)
      as [s' [Hh [Hs [Ha' [Hc' Hk']]]]].
    exists s'. cbn [tick_interrupts]. rewrite Hrun. cbn [bind].
    unfold tick_interrupt.
    split; [exact Hh |].
    change (scs (hw_wrap sk))
      with {| stcsr := Z.setbit (stcsr (scs sk)) COUNTFLAG_BIT;
              strvr := strvr (scs sk); stcvr := strvr (scs sk) |} in Hs.
    change (drv (hw_wrap sk)) with (drv sk) in Ha'.
    change (kern (hw_wrap sk)) with (kern sk) in Ha', Hc', Hk'.
    rewrite Hs. cbn [strvr stcvr].
    split; [exact Hr |]. split; [intros _; exact Hr |].
    split.
    + rewrite Ha', Ha, Hc, to_uint32_add_l, to_uint32_add_r.
      f_equal. rewrite Nat2Z.inj_succ. ring.
    + split; [rewrite Hc'; exact Hc |].
      rewrite Hk', Hk. destruct (announces cfg); reflexivity.
Qed.

(** C3 fails when tickless idle is built in.  Entering idle reprograms the
    reload register, and the read steps back: 899 cycles into a tick of 1000
    a request of one tick takes [timer_read] from 899 to 88.  And each
    periodic tick adds the reload value, one less than the cycles per tick:
    five serviced ticks give 4995, with five tick events. *)
Lemma timer_read_steps_back_on_idle_enter :
  timer_read (hw_countdown 100 configured_1000) = 899 /\
  timer_read (_timer_idle_enter 1 (hw_countdown 100 configured_1000)) = 88 /\
  exists s5,
    serviced_ticks tickless_build (fun _ => true) 5 configured_1000 = Ok s5 /\
    timer_read s5 = 4995 /\
    K_Args (kern s5) = repeat TICK_EVENT 5.
Proof.
  split; [vm_compute; reflexivity |].
  split; [vm_compute; reflexivity |].
  eexists. split; [vm_compute; reflexivity |].
  split; vm_compute; reflexivity.
Qed.

(** C3, amended.  Without tickless idle built in: after [timer_driver] and
    [k >= 1] periodic tick interrupts [timer_read] is [k] times the cycles
    per tick modulo 2^32, a build that announces ticks has announced exactly
    [k] of them, and as long as that product is below 2^32 the read after
    any smaller number of tick interrupts is not above it. *)
Theorem periodic_ticks_accumulate (cfg : config) (pm : Z -> bool)
    (hw : skew_samples) (s : state) (k : nat) :
  CONFIG_TICKLESS_IDLE cfg = false ->
  1 <= sys_clock_hw_cycles_per_tick (kern s) <= 16777216 ->
  accumulatedCount (drv s) = 0 ->
  (0 < k)%nat ->
  exists s0 sk,
    timer_driver cfg hw s = Ok s0 /\
    tick_interrupts cfg pm k s0 = Ok sk /\
    timer_read sk
      = to_uint32 (Z.of_nat k * sys_clock_hw_cycles_per_tick (kern s)) /\
    K_Args (kern sk) =
      (if announces cfg then repeat TICK_EVENT k ++ K_Args (kern s)
       else K_Args (kern s)) /\
    (Z.of_nat k * sys_clock_hw_cycles_per_tick (kern s) < two32 ->
     forall j : nat, (j <= k)%nat ->
       exists sj,
         tick_interrupts cfg pm j s0 = Ok sj /\
         timer_read sj <= timer_read sk).
Proof.
  intros Ht Hc Hacc Hk.
  set (c := sys_clock_hw_cycles_per_tick (kern s)) in *.
  set (s0 := stcsr_write 7 (sysTickReloadSet (to_uint32 (c - 1)) s)).
  assert (Hdrv : timer_driver cfg hw s = Ok s0).
  { unfold timer_driver, __ASSERT. fold c.
    rewrite (proj2 (Z.leb_le c 16777216)) by lia.
    cbn [bind]. rewrite Ht. reflexivity. }
  assert (Hr0 : strvr (scs s0) = c - 1).
  { change (strvr (scs s0)) with (to_uint32 (c - 1)).
    apply to_uint32_id. unfold is_uint32, two32. lia. }
  assert (Hv0 : stcvr (scs s0) = 0) by reflexivity.
  assert (Ha0 : accumulatedCount (drv s0) = 0) by exact Hacc.
  assert (Hc0 : sys_clock_hw_cycles_per_tick (kern s0) = c) by reflexivity.
  assert (Hk0 : K_Args (kern s0) = K_Args (kern s)) by reflexivity.
  assert (Hu0 : is_uint32 (accumulatedCount (drv s0))).
  { rewrite Ha0. unfold is_uint32, two32. lia. }
  assert (Hread : forall (n : nat) (sn : state),
             (0 < n)%nat ->
             stcvr (scs sn) = strvr (scs s0) ->
             strvr (scs sn) = strvr (scs s0) ->
             accumulatedCount (drv sn)
               = to_uint32 (accumulatedCount (drv s0) + Z.of_nat n * c) ->
             timer_read sn = to_uint32 (Z.of_nat n * c)).
  { intros n sn _ Hv Hr Ha. unfold timer_read.
    rewrite Hv, Hr, Ha, Ha0, Z.sub_diag, Z.add_0_l.
    change (to_uint32 0) with 0. rewrite Z.add_0_r. apply to_uint32_idem. }
  destruct (tick_interrupts_periodic cfg pm k s0 Ht Hu0)
    as [sk [Hrun [Hr [Hv [Ha [_ Hq]]]]]].
  rewrite Hc0 in Ha.
  exists s0, sk.
  split; [exact Hdrv |]. split; [exact Hrun |].
  split; [apply (Hread k sk Hk (Hv Hk) Hr Ha) |].
  split; [rewrite Hq, Hk0; reflexivity |].
  intros Hfit j Hj.
  destruct (tick_interrupts_periodic cfg pm j s0 Ht Hu0)
    as [sj [Hrunj [Hrj [Hvj [Haj _]]]]].
  rewrite Hc0 in Haj.
  exists sj. split; [exact Hrunj |].
  rewrite (Hread k sk Hk (Hv Hk) Hr Ha).
  unfold two32 in Hfit.
  rewrite (to_uint32_id (Z.of_nat k * c)) by (unfold is_uint32, two32; lia).
  destruct j as [| j'].
  - cbn [tick_interrupts] in Hrunj. injection Hrunj as <-.
    unfold timer_read. rewrite Ha0, Hv0, Hr0, Z.sub_0_r, Z.add_0_l.
    rewrite to_uint32_idem.
    rewrite to_uint32_id by (unfold is_uint32, two32; lia). nia.
  - rewrite (Hread (S j') sj (Nat.lt_0_succ j') (Hvj (Nat.lt_0_succ j'))
               Hrj Haj).
    rewrite to_uint32_id by (unfold is_uint32, two32; nia). nia.
Qed.

Lemma periodic_ticks_accumulate_witness :
  exists s0 sk,
    timer_driver periodic_build
      {| skew_start := 0; skew_dummy := 0; skew_end := 0 |}
      (reset_state 1000) = Ok s0 /\
    tick_interrupts periodic_build (fun _ => false) 5 s0 = Ok sk /\
    timer_read sk = 5000 /\
    K_Args (kern sk) =
      [TICK_EVENT; TICK_EVENT; TICK_EVENT; TICK_EVENT; TICK_EVENT] /\
    (5000 < two32 ->
     forall j : nat, (j <= 5)%nat ->
       exists sj,
         tick_interrupts periodic_build (fun _ => false) j s0 = Ok sj /\
         timer_read sj <= timer_read sk).
Proof.
  apply (periodic_ticks_accumulate periodic_build (fun _ => false)
           {| skew_start := 0; skew_dummy := 0; skew_end := 0 |}
           (reset_state 1000) 5).
  - reflexivity.
  - simpl. lia.
  - reflexivity.
  - lia.
Defined.

(** ** Starting the timer *)

Lemma start_eq (s : state) :
  sysTickStart s =
  set_stcsr
    (Z.clearbit
       (Z.setbit (Z.setbit (Z.setbit (stcsr (scs s)) ENABLE_BIT) TICKINT_BIT)
          CLKSOURCE_BIT)
       COUNTFLAG_BIT) s.
Proof.
  unfold sysTickStart, stcsr_read, stcsr_write.
  cbn [fst snd scs stcsr set_stcsr].
  rewrite Z.clearbit_eq. reflexivity.
Qed.

Lemma start_bits (s : state) :
  Z.testbit (stcsr (scs (sysTickStart s))) ENABLE_BIT = true /\
  Z.testbit (stcsr (scs (sysTickStart s))) TICKINT_BIT = true /\
  Z.testbit (stcsr (scs (sysTickStart s))) CLKSOURCE_BIT = true /\
  Z.testbit (stcsr (scs (sysTickStart s))) COUNTFLAG_BIT = false.
Proof.
  rewrite start_eq. cbn [scs stcsr set_stcsr].
  repeat split;
    rewrite ?Z.clearbit_eqb, ?Z.setbit_eqb
      by (unfold ENABLE_BIT, TICKINT_BIT, CLKSOURCE_BIT; lia);
    cbn; rewrite ?orb_true_r, ?andb_false_r; reflexivity.
Qed.

(** X3.  [sysTickStart] sets the enable, interrupt-enable and clock-source
    bits, leaves the count flag down and every other bit, the reload and
    current value registers and all variables as they were; started after a
    stop, or a second time, the timer is in the state one start gives. *)
Theorem sysTickStart_frame (s : state) :
  Z.testbit (stcsr (scs (sysTickStart s))) ENABLE_BIT = true /\
  Z.testbit (stcsr (scs (sysTickStart s))) TICKINT_BIT = true /\
  Z.testbit (stcsr (scs (sysTickStart s))) CLKSOURCE_BIT = true /\
  Z.testbit (stcsr (scs (sysTickStart s))) COUNTFLAG_BIT = false /\
  (forall n : Z,
      n <> ENABLE_BIT -> n <> TICKINT_BIT -> n <> CLKSOURCE_BIT ->
      n <> COUNTFLAG_BIT ->
      Z.testbit (stcsr (scs (sysTickStart s))) n
        = Z.testbit (stcsr (scs s)) n) /\
  strvr (scs (sysTickStart s)) = strvr (scs s) /\
  stcvr (scs (sysTickStart s)) = stcvr (scs s) /\
  drv (sysTickStart s) = drv s /\
  kern (sysTickStart s) = kern s /\
  sysTickStart (sysTickStop s) = sysTickStart s /\
  sysTickStart (sysTickStart s) = sysTickStart s.
Proof.
  destruct (start_bits s) as [H0 [H1 [H2 H16]]].
  split; [exact H0 |]. split; [exact H1 |]. split; [exact H2 |].
  split; [exact H16 |].
  split.
  { intros n N0 N1 N2 N16. rewrite start_eq. cbn [scs stcsr set_stcsr].
    rewrite Z.clearbit_neq by (intro E; symmetry in E; contradiction).
    rewrite !Z.setbit_neq
      by first [ intro E; symmetry in E; contradiction
               | unfold ENABLE_BIT, TICKINT_BIT, CLKSOURCE_BIT; lia ].
    reflexivity. }
  split; [reflexivity |]. split; [reflexivity |].
  split; [reflexivity |]. split; [reflexivity |].
  split.
  - rewrite (start_eq (sysTickStop s)), (start_eq s), (stop_eq s).
    unfold set_stcsr. cbn [scs stcsr strvr stcvr drv kern].
    f_equal. f_equal.
    apply Z.bits_inj'. intros n Hn.
    rewrite !Z.clearbit_eqb, !Z.setbit_eqb, !Z.clearbit_eqb
      by (unfold ENABLE_BIT, TICKINT_BIT, CLKSOURCE_BIT; lia).
    destruct (Z.testbit (stcsr (scs s)) n),
      (ENABLE_BIT =? n), (TICKINT_BIT =? n), (CLKSOURCE_BIT =? n),
      (COUNTFLAG_BIT =? n); reflexivity.
  - rewrite (start_eq (sysTickStart s)), (start_eq s).
    unfold set_stcsr. cbn [scs stcsr strvr stcvr drv kern].
    f_equal. f_equal.
    apply Z.bits_inj'. intros n Hn.
    rewrite !Z.clearbit_eqb, !Z.setbit_eqb, !Z.clearbit_eqb, !Z.setbit_eqb
      by (unfold ENABLE_BIT, TICKINT_BIT, CLKSOURCE_BIT; lia).
    destruct (Z.testbit (stcsr (scs s)) n),
      (ENABLE_BIT =? n), (TICKINT_BIT =? n), (CLKSOURCE_BIT =? n),
      (COUNTFLAG_BIT =? n); reflexivity.
Qed.

(** ** The interval programmed at idle entry *)

Lemma enter_started (n : Z) (s : state) :
  exists s0, _timer_idle_enter n s = sysTickStart s0.
Proof. unfold _timer_idle_enter. eexists. reflexivity. Qed.

(** X4.  With the constants as the initialisation leaves them
    ([maxLoadValue = maxSysTicks * defaultLoadVal], at most [0x00ffffff]) and
    a skew-adjusted count between zero and one tick, every request other
    than zero programs an interval that fits the 24-bit counter: the reload
    value is the adjusted count plus [idleOrigTicks] whole ticks, the current
    value is cleared, and the timer runs with its interrupt enabled. *)
Theorem idle_enter_reload_fits (s : state) (n : Z) :
  is_int32 n ->
  n <> 0 ->
  0 < defaultLoadVal (drv s) ->
  1 <= maxSysTicks (drv s) ->
  maxLoadValue (drv s) = maxSysTicks (drv s) * defaultLoadVal (drv s) ->
  maxLoadValue (drv s) <= 16777215 ->
  0 <= stcvr (scs s) - timerIdleSkew (drv s) <= defaultLoadVal (drv s) ->
  sysTickReloadGet (_timer_idle_enter n s)
    = stcvr (scs s) - timerIdleSkew (drv s)
      + idleOrigTicks (drv (_timer_idle_enter n s)) * defaultLoadVal (drv s) /\
  0 <= sysTickReloadGet (_timer_idle_enter n s) <= 16777215 /\
  sysTickCurrentGet (_timer_idle_enter n s) = 0 /\
  Z.testbit (stcsr (scs (_timer_idle_enter n s))) ENABLE_BIT = true /\
  Z.testbit (stcsr (scs (_timer_idle_enter n s))) TICKINT_BIT = true /\
  Z.testbit (stcsr (scs (_timer_idle_enter n s))) COUNTFLAG_BIT = false.
Proof.
  unfold is_int32, two31. intros Hn Hnz Hd Hmax Hml Hfit Ho.
  set (d := defaultLoadVal (drv s)) in *.
  set (m := maxSysTicks (drv s)) in *.
  set (o := stcvr (scs s) - timerIdleSkew (drv s)) in *.
  assert (Hm24 : m <= 16777215) by nia.
  assert (Hbits : Z.testbit (stcsr (scs (_timer_idle_enter n s))) ENABLE_BIT
                    = true /\
                  Z.testbit (stcsr (scs (_timer_idle_enter n s))) TICKINT_BIT
                    = true /\
                  Z.testbit (stcsr (scs (_timer_idle_enter n s))) COUNTFLAG_BIT
                    = false).
  { destruct (enter_started n s) as [s0 ->].
    destruct (start_bits s0) as [H0 [H1 [_ H16]]]. repeat split; assumption. }
  destruct (enter_registers n s) as [Hr Hv].
  unfold sysTickReloadGet, sysTickCurrentGet. rewrite Hr, Hv.
  rewrite enter_idleOrigCount, enter_idleOrigTicks.
  fold d. fold m. fold o.
  assert (Hval : (if clamps n s
                  then to_uint32 (to_uint32 o
                                  + to_uint32 (maxLoadValue (drv s) - d))
                  else to_uint32 (to_uint32 o + to_uint32 (to_uint32 (n - 1) * d)))
                 = o + (if clamps n s then to_uint32 (m - 1)
                        else to_uint32 (n - 1)) * d /\
                 0 <= o + (if clamps n s then to_uint32 (m - 1)
                           else to_uint32 (n - 1)) * d <= 16777215).
  { destruct (clamps n s) eqn:Hc.
    - rewrite (to_uint32_id (m - 1)) by (unfold is_uint32, two32; lia).
      rewrite to_uint32_add_l, to_uint32_add_r.
      rewrite to_uint32_id by (unfold is_uint32, two32; nia).
      split; nia.
    - unfold clamps in Hc. apply orb_false_iff in Hc. destruct Hc as [_ Hle].
      rewrite Z.gtb_ltb in Hle. apply Z.ltb_ge in Hle. fold m in Hle.
      assert (Hpos : 1 <= n <= m).
      { destruct (Z_lt_le_dec n 0) as [Hneg | Hge].
        - assert (Hu : to_uint32 n = n + 4294967296).
          { unfold to_uint32, two32. symmetry.
            apply Z.mod_unique with (q := -1); lia. }
          rewrite Hu in Hle. lia.
        - rewrite to_uint32_id in Hle by (unfold is_uint32, two32; lia). lia. }
      rewrite (to_uint32_id (n - 1)) by (unfold is_uint32, two32; lia).
      rewrite to_uint32_add_l, to_uint32_add_r.
      rewrite to_uint32_id by (unfold is_uint32, two32; nia).
      split; nia. }
  destruct Hval as [Hval Hrange]. rewrite Hval.
  split; [reflexivity |]. split; [exact Hrange |]. split; [reflexivity |].
  exact Hbits.
Qed.

Lemma idle_enter_reload_fits_witness :
  sysTickReloadGet (_timer_idle_enter (-1) (hw_countdown 500 configured_1000))
    = 500 - 12
      + idleOrigTicks
          (drv (_timer_idle_enter (-1) (hw_countdown 500 configured_1000)))
        * 999 /\
  0 <= sysTickReloadGet
         (_timer_idle_enter (-1) (hw_countdown 500 configured_1000))
    <= 16777215 /\
  sysTickCurrentGet
    (_timer_idle_enter (-1) (hw_countdown 500 configured_1000)) = 0 /\
  Z.testbit
    (stcsr (scs (_timer_idle_enter (-1) (hw_countdown 500 configured_1000))))
    ENABLE_BIT = true /\
  Z.testbit
    (stcsr (scs (_timer_idle_enter (-1) (hw_countdown 500 configured_1000))))
    TICKINT_BIT = true /\
  Z.testbit
    (stcsr (scs (_timer_idle_enter (-1) (hw_countdown 500 configured_1000))))
    COUNTFLAG_BIT = false.
Proof.
  apply (idle_enter_reload_fits (hw_countdown 500 configured_1000) (-1)).
  - unfold is_int32, two31. lia.
  - lia.
  - simpl. lia.
  - simpl. lia.
  - reflexivity.
  - simpl. lia.
  - simpl. lia.
Defined.

(** The machine after [_timer_idle_enter], field by field. *)
Lemma enter_eq (n : Z) (s : state) :
  _timer_idle_enter n s =
  let count :=
    if clamps n s then
      to_uint32 (to_uint32 (stcvr (scs s) - timerIdleSkew (drv s))
                 + to_uint32 (maxLoadValue (drv s) - defaultLoadVal (drv s)))
    else
      to_uint32 (to_uint32 (stcvr (scs s) - timerIdleSkew (drv s))
                 + to_uint32 (to_uint32 (n - 1) * defaultLoadVal (drv s))) in
  {| scs := {| stcsr := stcsr (scs (sysTickStart (stcvr_write 0 (sysTickStop s))));
               strvr := count; stcvr := 0 |};
     drv := {| accumulatedCount := accumulatedCount (drv s);
               defaultLoadVal := defaultLoadVal (drv s);
               idleOrigCount := count;
               maxSysTicks := maxSysTicks (drv s);
               idleOrigTicks :=
                 (if clamps n s then to_uint32 (maxSysTicks (drv s) - 1)
                  else to_uint32 (n - 1));
               maxLoadValue := maxLoadValue (drv s);
               timerIdleSkew := timerIdleSkew (drv s);
               timerMode := TIMER_MODE_ONE_SHOT;
               idleMode := IDLE_TICKLESS |};
     kern := kern s |}.
Proof.
  unfold _timer_idle_enter, clamps.
  change (maxSysTicks (drv (set_idleOrigCount
            (to_uint32 (sysTickCurrentGet (sysTickStop s)
                        - timerIdleSkew (drv (sysTickStop s))))
            (sysTickStop s))))
    with (maxSysTicks (drv s)).
  destruct ((n =? -1) || _); reflexivity.
Qed.

(** X5.  The clamp is continuous at its boundary: when [maxLoadValue] is
    [maxSysTicks * defaultLoadVal] in 32-bit arithmetic, a request of exactly
    [maxSysTicks] ticks, which takes the branch that is not clamped, leaves
    the machine in the very state a request of [-1] leaves it in. *)
Theorem idle_enter_at_max (s : state) :
  1 <= maxSysTicks (drv s) < two31 ->
  maxLoadValue (drv s)
    = to_uint32 (maxSysTicks (drv s) * defaultLoadVal (drv s)) ->
  _timer_idle_enter (maxSysTicks (drv s)) s = _timer_idle_enter (-1) s.
Proof.
  unfold two31. intros Hm Hml.
  assert (Hv : to_uint32 (to_uint32 (stcvr (scs s) - timerIdleSkew (drv s))
                          + to_uint32 (to_uint32 (maxSysTicks (drv s) - 1)
                                       * defaultLoadVal (drv s)))
               = to_uint32 (to_uint32 (stcvr (scs s) - timerIdleSkew (drv s))
                            + to_uint32 (maxLoadValue (drv s)
                                         - defaultLoadVal (drv s)))).
  { rewrite (to_uint32_id (maxSysTicks (drv s) - 1))
      by (unfold is_uint32, two32; lia).
    rewrite !to_uint32_add_r. rewrite Hml.
    set (a := to_uint32 (stcvr (scs s) - timerIdleSkew (drv s))).
    set (x := maxSysTicks (drv s) * defaultLoadVal (drv s)).
    replace (a + (to_uint32 x - defaultLoadVal (drv s)))
      with (to_uint32 x + (a - defaultLoadVal (drv s))) by ring.
    rewrite to_uint32_add_l. f_equal. unfold x. ring. }
  assert (Hc : clamps (maxSysTicks (drv s)) s = false).
  { apply clamps_false_in_range; [unfold is_int32, two31 |]; lia. }
  rewrite (enter_eq (maxSysTicks (drv s)) s), (enter_eq (-1) s), Hc.
  change (clamps (-1) s) with true. cbv iota.
  rewrite Hv. reflexivity.
Qed.

Lemma idle_enter_at_max_witness :
  _timer_idle_enter (maxSysTicks (drv configured_1000)) configured_1000
    = _timer_idle_enter (-1) configured_1000.
Proof.
  apply (idle_enter_at_max configured_1000).
  - unfold two31. simpl. lia.
  - reflexivity.
Defined.

(** ** Every way out of [_timer_idle_exit] *)

Lemma to_int32_of_uint32 (z : Z) : to_int32 (to_uint32 z) = to_int32 z.
Proof. unfold to_int32. rewrite to_uint32_idem. reflexivity. Qed.

Lemma to_uint32_mul_r (a b : Z) : to_uint32 (a * to_uint32 b) = to_uint32 (a * b).
Proof. unfold to_uint32. apply Zmult_mod_idemp_r. Qed.

(** The exit that finds the count at zero. *)
Lemma idle_exit_expired (s : state) :
  timerMode (drv s) = TIMER_MODE_ONE_SHOT ->
  stcvr (scs s) = 0 ->
  _timer_idle_exit s =
  Ok (sysTickStart
        (set_idleMode IDLE_NOT_TICKLESS
           (nano_isr_stack_push TICK_EVENT
              (set_SysIdleElapsedTicks
                 (to_int32 (to_uint32 (idleOrigTicks (drv s) - 1)))
                 (set_timerMode TIMER_MODE_PERIODIC
                    (sysTickReloadSet (defaultLoadVal (drv s))
                       (sysTickStop s))))))).
Proof.
  intros Hm Hc. unfold _timer_idle_exit. rewrite Hm.
  unfold expired_or_wrapped.
  change (sysTickCurrentGet (sysTickStop s)) with (stcvr (scs s)).
  rewrite Hc. reflexivity.
Qed.

(** The exit that would divide by a reload value of zero. *)
Lemma idle_exit_zero_reload (s : state) :
  timerMode (drv s) = TIMER_MODE_ONE_SHOT ->
  stcvr (scs s) <> 0 ->
  defaultLoadVal (drv s) = 0 ->
  _timer_idle_exit s = Fault DIV_BY_ZERO.
Proof.
  intros Hm Hc Hd. unfold _timer_idle_exit. rewrite Hm.
  unfold expired_or_wrapped.
  change (sysTickCurrentGet (sysTickStop s)) with (stcvr (scs s)).
  rewrite (proj2 (Z.eqb_neq _ _) Hc).
  unfold stcsr_read. rewrite stop_countflag.
  cbv beta iota zeta.
  set (s2 := set_stcsr _ (sysTickStop s)).
  change (drv s2) with (drv s).
  unfold umod. rewrite Hd. reflexivity.
Qed.

(** Whatever branch it takes, an exit from the one-shot mode ends with the
    idle mode cleared and the timer started. *)
Lemma idle_exit_one_shot_started (s s' : state) :
  timerMode (drv s) = TIMER_MODE_ONE_SHOT ->
  _timer_idle_exit s = Ok s' ->
  exists s0, s' = sysTickStart s0 /\ idleMode (drv s0) = IDLE_NOT_TICKLESS.
Proof.
  intros Hm. unfold _timer_idle_exit. rewrite Hm.
  destruct (expired_or_wrapped _ _) as [dn s1].
  destruct dn.
  - cbn [bind]. intros H. injection H as <-. eexists. split; reflexivity.
  - unfold umod, udiv.
    destruct (defaultLoadVal (drv s1) =? 0) eqn:Hd; cbn [bind];
      [discriminate |].
    destruct (_ mod _ =? 0).
    + change (defaultLoadVal (drv (set_timerMode _ _)))
        with (defaultLoadVal (drv s1)).
      rewrite Hd. cbn [bind]. intros H. injection H as <-.
      eexists. split; reflexivity.
    + destruct (_ >? _).
      * change (defaultLoadVal (drv (sysTickReloadSet _ s1)))
          with (defaultLoadVal (drv s1)).
        rewrite Hd. cbn [bind]. intros H. injection H as <-.
        eexists. split; reflexivity.
      * rewrite Hd. cbn [bind]. intros H. injection H as <-.
        eexists. split; reflexivity.
Qed.

(** X6.  [_timer_idle_exit] fails in one case only, the division by a
    default reload value of zero when it is entered in the one-shot mode with
    a count that is not zero.  In every other case it returns, and an exit
    from the one-shot mode always returns with the idle mode cleared and the
    timer and its interrupt enabled again. *)
Theorem idle_exit_fault_iff (s : state) :
  match _timer_idle_exit s with
  | Fault f =>
      f = DIV_BY_ZERO /\
      timerMode (drv s) = TIMER_MODE_ONE_SHOT /\
      stcvr (scs s) <> 0 /\
      defaultLoadVal (drv s) = 0
  | Ok s' =>
      (timerMode (drv s) = TIMER_MODE_PERIODIC \/
       stcvr (scs s) = 0 \/
       defaultLoadVal (drv s) <> 0) /\
      (timerMode (drv s) = TIMER_MODE_ONE_SHOT ->
       idleMode (drv s') = IDLE_NOT_TICKLESS /\
       Z.testbit (stcsr (scs s')) ENABLE_BIT = true /\
       Z.testbit (stcsr (scs s')) TICKINT_BIT = true)
  end.
Proof.
  assert (Hstarted : forall s', timerMode (drv s) = TIMER_MODE_ONE_SHOT ->
             _timer_idle_exit s = Ok s' ->
             idleMode (drv s') = IDLE_NOT_TICKLESS /\
             Z.testbit (stcsr (scs s')) ENABLE_BIT = true /\
             Z.testbit (stcsr (scs s')) TICKINT_BIT = true).
  { intros s' Hm Hx.
    destruct (idle_exit_one_shot_started s s' Hm Hx) as [s0 [-> Hi]].
    destruct (start_bits s0) as [H0 [H1 _]].
    split; [exact Hi |]. split; assumption. }
  destruct (timerMode (drv s)) eqn:Hm.
  - assert (Hx : _timer_idle_exit s = Ok s).
    { unfold _timer_idle_exit. rewrite Hm. reflexivity. }
    rewrite Hx. split; [left; reflexivity | discriminate].
  - destruct (Z.eq_dec (stcvr (scs s)) 0) as [Hc | Hc].
    + destruct (_timer_idle_exit s) as [s' | f] eqn:Hx.
      * split; [right; left; exact Hc | intros _; apply Hstarted; reflexivity].
      * rewrite (idle_exit_expired s Hm Hc) in Hx. discriminate Hx.
    + destruct (Z.eq_dec (defaultLoadVal (drv s)) 0) as [Hd | Hd].
      * rewrite (idle_exit_zero_reload s Hm Hc Hd). repeat split; assumption.
      * destruct (idle_exit_running s Hm Hc Hd) as [s' [Hx _]].
        rewrite Hx. split; [right; right; exact Hd |].
        intros _. apply Hstarted; [reflexivity | exact Hx].
Qed.

(** What the tickless part of the handler adds to the accumulator. *)
Lemma handler_tickless_accumulates (s : state) :
  accumulatedCount (drv (handler_tickless s)) =
    to_uint32 (accumulatedCount (drv s)
               + to_uint32 (defaultLoadVal (drv s)
                            * to_uint32 (_SysIdleElapsedTicks
                                           (kern (handler_tickless s))))) /\
  defaultLoadVal (drv (handler_tickless s)) = defaultLoadVal (drv s).
Proof.
  unfold handler_tickless.
  destruct (timerMode (drv s)) eqn:Hm; destruct (idleMode (drv s)) eqn:Hi;
    cbn; rewrite ?Hi; cbn;
    try destruct (to_int32 (_SysIdleElapsedTicks (kern s) + 1) =? 1);
    split; reflexivity.
Qed.

(** X7.  An idle exit that finds the count at zero reports [idleOrigTicks - 1]
    ticks, and the handler that runs next adds one: after
    [_timer_idle_enter n] with [1 <= n <= maxSysTicks], expiry, exit and
    handler, [n - 1] elapsed ticks are reported and [(n - 1) * defaultLoadVal]
    cycles are accumulated, one tick less than when the handler alone
    completes the idle.  The exit announces a tick event and the handler a
    second one only when [n] is two. *)
Theorem idle_exit_at_expiry_then_handler (cfg : config) (pm : Z -> bool)
    (s : state) (n : Z) :
  CONFIG_TICKLESS_IDLE cfg = true ->
  CONFIG_ADVANCED_POWER_MANAGEMENT cfg = true ->
  is_int32 n ->
  1 <= n <= maxSysTicks (drv s) ->
  exists s1 s2,
    _timer_idle_exit (hw_expire (_timer_idle_enter n s)) = Ok s1 /\
    _SysIdleElapsedTicks (kern s1) = n - 2 /\
    timerMode (drv s1) = TIMER_MODE_PERIODIC /\
    sysTickReloadGet s1 = defaultLoadVal (drv s) /\
    K_Args (kern s1) = TICK_EVENT :: K_Args (kern s) /\
    _timer_int_handler cfg pm s1 = Ok s2 /\
    _SysIdleElapsedTicks (kern s2) = n - 1 /\
    K_Args (kern s2) =
      (if n =? 2 then TICK_EVENT :: TICK_EVENT :: K_Args (kern s)
       else TICK_EVENT :: K_Args (kern s)) /\
    accumulatedCount (drv s2) =
      to_uint32 (accumulatedCount (drv s) + (n - 1) * defaultLoadVal (drv s)).
Proof.
  intros Ht Ha Hn Hr. pose proof Hn as Hn'. unfold is_int32, two31 in Hn'.
  set (e := hw_expire (_timer_idle_enter n s)).
  destruct (enter_modes n s) as [Hmode _].
  destruct (enter_constants n s) as [Hdef [_ [_ [_ Hacc]]]].
  pose proof (enter_idleOrigTicks n s) as Hticks.
  rewrite (clamps_false_in_range n s Hn Hr) in Hticks.
  rewrite to_uint32_id in Hticks by (unfold is_uint32, two32; lia).
  assert (He : drv e = drv (_timer_idle_enter n s)) by reflexivity.
  assert (Hk : kern e = kern s) by (apply (enter_kern n s)).
  assert (Hx := idle_exit_expired e).
  rewrite He in Hx. specialize (Hx Hmode eq_refl).
  rewrite Hticks, Hdef in Hx.
  replace (n - 1 - 1) with (n - 2) in Hx by lia.
  rewrite to_int32_of_uint32 in Hx.
  rewrite (to_int32_id (n - 2)) in Hx by (unfold is_int32, two31; lia).
  set (s1 := sysTickStart _) in Hx.
  assert (Hi1 : idleMode (drv s1) = IDLE_NOT_TICKLESS) by reflexivity.
  assert (He1 : _SysIdleElapsedTicks (kern s1) = n - 2) by reflexivity.
  assert (Hk1 : K_Args (kern s1) = TICK_EVENT :: K_Args (kern s)).
  { change (K_Args (kern s1)) with (TICK_EVENT :: K_Args (kern e)).
    rewrite Hk. reflexivity. }
  assert (Hd1 : defaultLoadVal (drv s1) = defaultLoadVal (drv s)) by exact Hdef.
  assert (Ha1 : accumulatedCount (drv s1) = accumulatedCount (drv s))
    by exact Hacc.
  exists s1, (handler_tickless_exit s1).
  split; [exact Hx |]. split; [exact He1 |]. split; [reflexivity |].
  split; [reflexivity |]. split; [exact Hk1 |].
  split; [apply (handler_tickless_build cfg pm s1 Ht Ha) |].
  destruct (handler_tickless_exit_report s1) as [Hrep Hq].
  set (p := set_primask true s1) in *.
  destruct (handler_tickless_periodic p Hi1) as [Hpe [Hpk _]].
  destruct (handler_tickless_accumulates p) as [Hpa _].
  change (_SysIdleElapsedTicks (kern p)) with (_SysIdleElapsedTicks (kern s1))
    in Hpe, Hpk.
  change (K_Args (kern p)) with (K_Args (kern s1)) in Hpk.
  change (accumulatedCount (drv p)) with (accumulatedCount (drv s1)) in Hpa.
  change (defaultLoadVal (drv p)) with (defaultLoadVal (drv s1)) in Hpa.
  rewrite He1 in Hpe, Hpk. replace (n - 2 + 1) with (n - 1) in Hpe, Hpk by lia.
  rewrite (to_int32_id (n - 1)) in Hpe, Hpk by (unfold is_int32, two31; lia).
  rewrite Hpe, Ha1, Hd1 in Hpa.
  rewrite handler_tickless_exit_drv, Hrep, Hq. fold p.
  rewrite Hpe, Hpk, Hpa, Hk1.
  split; [reflexivity |].
  split.
  - destruct (Z.eqb_spec (n - 1) 1), (Z.eqb_spec n 2); lia || reflexivity.
  - rewrite to_uint32_add_r, (to_uint32_id (n - 1))
      by (unfold is_uint32, two32; lia).
    f_equal. ring.
Qed.

Lemma idle_exit_at_expiry_then_handler_witness :
  exists s1 s2,
    _timer_idle_exit (hw_expire (_timer_idle_enter 5 configured_1000))
      = Ok s1 /\
    _SysIdleElapsedTicks (kern s1) = 5 - 2 /\
    timerMode (drv s1) = TIMER_MODE_PERIODIC /\
    sysTickReloadGet s1 = 999 /\
    K_Args (kern s1) = [TICK_EVENT] /\
    _timer_int_handler tickless_build (fun _ => true) s1 = Ok s2 /\
    _SysIdleElapsedTicks (kern s2) = 5 - 1 /\
    K_Args (kern s2) = [TICK_EVENT] /\
    accumulatedCount (drv s2) = to_uint32 (0 + (5 - 1) * 999).
Proof.
  apply (idle_exit_at_expiry_then_handler tickless_build (fun _ => true)
           configured_1000 5).
  - reflexivity.
  - reflexivity.
  - unfold is_int32, two31. lia.
  - simpl. lia.
Defined.

(** X8.  An idle exit on a tick boundary, the elapsed count being [k] whole
    ticks, returns the timer to the periodic mode with the default reload
    value and reports [k] ticks; it announces a tick event unless [k] is
    zero, as it is when idle is left before the counter has moved. *)
Theorem idle_exit_on_tick_boundary (s : state) (k : Z) :
  timerMode (drv s) = TIMER_MODE_ONE_SHOT ->
  stcvr (scs s) <> 0 ->
  0 < defaultLoadVal (drv s) ->
  0 <= k < two31 ->
  to_uint32 (idleOrigCount (drv s) - stcvr (scs s))
    = k * defaultLoadVal (drv s) ->
  exists s',
    _timer_idle_exit s = Ok s' /\
    timerMode (drv s') = TIMER_MODE_PERIODIC /\
    sysTickReloadGet s' = defaultLoadVal (drv s) /\
    _SysIdleElapsedTicks (kern s') = k /\
    K_Args (kern s') =
      (if k =? 0 then K_Args (kern s) else TICK_EVENT :: K_Args (kern s)) /\
    idleMode (drv s') = IDLE_NOT_TICKLESS.
Proof.
  unfold two31. intros Hm Hc Hd Hk He.
  destruct (idle_exit_running s Hm Hc) as [s' [Hx [Hrep [Hmode [Hrl [Hq Hi]]]]]];
    [lia |].
  rewrite He in Hrep, Hmode, Hrl, Hq.
  rewrite Z.mod_mul in Hmode, Hrl by lia.
  rewrite Z.div_mul in Hrep, Hq by lia.
  rewrite to_int32_id in Hrep, Hq by (unfold is_int32, two31; lia).
  exists s'. unfold sysTickReloadGet. repeat split; assumption.
Qed.

Lemma idle_exit_on_tick_boundary_witness :
  exists s',
    _timer_idle_exit
      (hw_countdown 6482
         (_timer_idle_enter 10 (hw_countdown 500 configured_1000))) = Ok s' /\
    timerMode (drv s') = TIMER_MODE_PERIODIC /\
    sysTickReloadGet s' = 999 /\
    _SysIdleElapsedTicks (kern s') = 3 /\
    K_Args (kern s') = [TICK_EVENT] /\
    idleMode (drv s') = IDLE_NOT_TICKLESS.
Proof.
  apply (idle_exit_on_tick_boundary
           (hw_countdown 6482
              (_timer_idle_enter 10 (hw_countdown 500 configured_1000))) 3).
  - reflexivity.
  - simpl. discriminate.
  - simpl. lia.
  - unfold two31. lia.
  - vm_compute. reflexivity.
Defined.

(** ** What the handler always leaves behind *)

Lemma handler_tickless_restarts (s : state) :
  timerMode (drv s) = TIMER_MODE_ONE_SHOT ->
  stcsr (scs (handler_tickless s))
    = stcsr (scs (sysTickStart
                    (sysTickReloadSet (defaultLoadVal (drv s))
                       (sysTickStop s)))).
Proof.
  intros Hm. unfold handler_tickless. rewrite Hm.
  destruct (idleMode (drv s)) eqn:Hi; cbn; rewrite ?Hi; cbn;
    try destruct (to_int32 (_SysIdleElapsedTicks (kern s) + 1) =? 1);
    reflexivity.
Qed.

(** X9.  The handler never fails, although it may call [_timer_idle_exit],
    which can: the exit is reached in the periodic mode only.  With power
    management built in it returns with the interrupts unmasked and no idle
    request pending; with tickless idle as well it returns in the periodic
    mode with the idle mode cleared, and when it was entered in the one-shot
    mode the default reload value is programmed, the count is cleared and
    the timer is enabled. *)
Theorem handler_never_faults (cfg : config) (pm : Z -> bool) (s : state) :
  exists s',
    _timer_int_handler cfg pm s = Ok s' /\
    (CONFIG_ADVANCED_POWER_MANAGEMENT cfg = true ->
     primask (kern s') = false /\ _NanoIdleVal (kern s') = 0) /\
    (CONFIG_ADVANCED_POWER_MANAGEMENT cfg = true ->
     CONFIG_TICKLESS_IDLE cfg = true ->
     timerMode (drv s') = TIMER_MODE_PERIODIC /\
     idleMode (drv s') = IDLE_NOT_TICKLESS /\
     (timerMode (drv s) = TIMER_MODE_ONE_SHOT ->
      sysTickReloadGet s' = defaultLoadVal (drv s) /\
      sysTickCurrentGet s' = 0 /\
      Z.testbit (stcsr (scs s')) ENABLE_BIT = true /\
      Z.testbit (stcsr (scs s')) TICKINT_BIT = true)).
Proof.
  destruct (CONFIG_ADVANCED_POWER_MANAGEMENT cfg) eqn:Ha.
  - destruct (CONFIG_TICKLESS_IDLE cfg) eqn:Ht.
    + exists (handler_tickless_exit s).
      split; [apply (handler_tickless_build cfg pm s Ht Ha) |].
      split.
      * intros _. unfold handler_tickless_exit.
        destruct (_NanoIdleVal (kern (handler_tickless (set_primask true s)))
                  =? 0) eqn:E.
        -- apply Z.eqb_eq in E. split; [reflexivity | exact E].
        -- split; reflexivity.
      * intros _ _. rewrite handler_tickless_exit_drv.
        split; [apply handler_tickless_mode |].
        split.
        -- destruct (idleMode (drv (set_primask true s))) eqn:Hi.
           ++ apply (handler_tickless_periodic _ Hi).
           ++ apply (handler_tickless_idle _ Hi).
        -- intros Hm. unfold sysTickReloadGet, sysTickCurrentGet.
           rewrite handler_tickless_exit_scs.
           destruct (handler_tickless_one_shot (set_primask true s) Hm)
             as [Hr [Hv _]].
           rewrite Hr, Hv, (handler_tickless_restarts (set_primask true s) Hm).
           destruct (start_bits
                       (sysTickReloadSet
                          (defaultLoadVal (drv (set_primask true s)))
                          (sysTickStop (set_primask true s))))
             as [H0 [H1 _]].
           repeat split; assumption.
    + unfold _timer_int_handler. rewrite Ha, Ht.
      set (s2 := nano_isr_stack_push TICK_EVENT
                   (accumulate_tick (set_primask true s))).
      destruct (_NanoIdleVal (kern s2) =? 0) eqn:E.
      * cbn [bind]. eexists. split; [reflexivity |].
        split; [| intros _ H; discriminate H].
        intros _. apply Z.eqb_eq in E. split; [reflexivity | exact E].
      * unfold _SysPowerSaveIdleExit. rewrite Ht. cbn [andb bind].
        eexists. split; [reflexivity |].
        split; [| intros _ H; discriminate H].
        intros _. split; reflexivity.
  - unfold _timer_int_handler. rewrite Ha.
    eexists. split; [reflexivity |].
    split; intros H; discriminate H.
Qed.

(** X10.  A tickless idle of [n] ticks, [1 <= n <= maxSysTicks], that the
    handler completes adds [n] times the default reload value to the
    accumulated count, in 32-bit arithmetic, and announces one tick event. *)
Theorem tickless_idle_accumulates (cfg : config) (pm : Z -> bool)
    (s : state) (n : Z) :
  CONFIG_TICKLESS_IDLE cfg = true ->
  CONFIG_ADVANCED_POWER_MANAGEMENT cfg = true ->
  is_int32 n ->
  1 <= n <= maxSysTicks (drv s) ->
  exists s',
    _timer_int_handler cfg pm (hw_expire (_timer_idle_enter n s)) = Ok s' /\
    accumulatedCount (drv s') =
      to_uint32 (accumulatedCount (drv s) + n * defaultLoadVal (drv s)) /\
    K_Args (kern s') = TICK_EVENT :: K_Args (kern s).
Proof.
  intros Ht Ha Hn Hr. pose proof Hn as Hn'. unfold is_int32, two31 in Hn'.
  rewrite (handler_tickless_build cfg pm _ Ht Ha).
  eexists. split; [reflexivity |].
  destruct (enter_modes n s) as [_ Hidle].
  destruct (enter_constants n s) as [Hdef [_ [_ [_ Hacc]]]].
  pose proof (enter_idleOrigTicks n s) as Hticks.
  rewrite (clamps_false_in_range n s Hn Hr) in Hticks.
  rewrite to_uint32_id in Hticks by (unfold is_uint32, two32; lia).
  pose proof (enter_kern n s) as Hkern.
  destruct (handler_tickless_exit_report (hw_expire (_timer_idle_enter n s)))
    as [_ Hq].
  rewrite handler_tickless_exit_drv, Hq.
  set (p := set_primask true (hw_expire (_timer_idle_enter n s))).
  assert (Hd : drv p = drv (_timer_idle_enter n s)) by reflexivity.
  assert (Hk : K_Args (kern p) = K_Args (kern s)).
  { change (K_Args (kern p)) with (K_Args (kern (_timer_idle_enter n s))).
    rewrite Hkern. reflexivity. }
  rewrite <- Hd in Hidle, Hdef, Hacc, Hticks.
  destruct (handler_tickless_idle p Hidle) as [Hrep [Hev _]].
  destruct (handler_tickless_accumulates p) as [Hpa _].
  rewrite Hrep, Hticks, Hdef, Hacc in Hpa.
  replace (n - 1 + 1) with n in Hpa by lia.
  rewrite (to_uint32_id n) in Hpa by (unfold is_uint32, two32; lia).
  rewrite (to_int32_id n) in Hpa by (unfold is_int32, two31; lia).
  rewrite (to_uint32_id n) in Hpa by (unfold is_uint32, two32; lia).
  rewrite to_uint32_add_r in Hpa.
  rewrite Hpa, Hev, Hk.
  split; [f_equal; ring | reflexivity].
Qed.

Lemma tickless_idle_accumulates_witness :
  exists s',
    _timer_int_handler tickless_build (fun _ => true)
      (hw_expire (_timer_idle_enter 5 configured_1000)) = Ok s' /\
    accumulatedCount (drv s') = to_uint32 (0 + 5 * 999) /\
    K_Args (kern s') = [TICK_EVENT].
Proof.
  apply (tickless_idle_accumulates tickless_build (fun _ => true)
           configured_1000 5).
  - reflexivity.
  - reflexivity.
  - unfold is_int32, two31. lia.
  - simpl. lia.
Defined.

(** ** What [timer_driver] sets up *)

Lemma tickless_init_result (hw : skew_samples) (s : state) :
  strvr (scs s) <> 0 ->
  exists s',
    sysTickTicklessIdleInit hw s = Ok s' /\
    strvr (scs s') = strvr (scs s) /\
    stcvr (scs s') = 0 /\
    Z.testbit (stcsr (scs s')) COUNTFLAG_BIT = false /\
    defaultLoadVal (drv s') = strvr (scs s) /\
    maxSysTicks (drv s') = 16777215 / strvr (scs s) /\
    maxLoadValue (drv s')
      = to_uint32 (16777215 / strvr (scs s) * strvr (scs s)) /\
    timerIdleSkew (drv s') = to_uint32 (skew_start hw - skew_end hw) /\
    timerMode (drv s') = TIMER_MODE_PERIODIC /\
    accumulatedCount (drv s') = accumulatedCount (drv s) /\
    idleOrigCount (drv s') = idleOrigCount (drv s) /\
    idleOrigTicks (drv s') = idleOrigTicks (drv s) /\
    idleMode (drv s') = idleMode (drv s) /\
    kern s' = kern s.
Proof.
  intros Hr. unfold sysTickTicklessIdleInit.
  change (defaultLoadVal (drv (set_defaultLoadVal (sysTickReloadGet s) s)))
    with (strvr (scs s)).
  unfold udiv. rewrite (proj2 (Z.eqb_neq _ _) Hr). cbn [bind].
  eexists. split; [reflexivity |].
  split; [reflexivity |]. split; [reflexivity |].
  split; [apply Z.clearbit_eq |].
  repeat split; reflexivity.
Qed.


(** X11.  With tickless idle built in and from 2 to 2^24 cycles per tick,
    [timer_driver] leaves the constants of the idle controller consistent:
    the default reload value is the cycles per tick minus one,
    [maxSysTicks] is at least one, [maxLoadValue] is [maxSysTicks] times the
    default reload value and is the largest such multiple that fits 24 bits,
    the skew is the first count sampled minus the last in 32-bit arithmetic,
    and the timer is periodic. *)
Theorem timer_driver_tickless_constants (cfg : config) (hw : skew_samples)
    (s : state) :
  CONFIG_TICKLESS_IDLE cfg = true ->
  2 <= sys_clock_hw_cycles_per_tick (kern s) <= 16777216 ->
  exists s',
    timer_driver cfg hw s = Ok s' /\
    defaultLoadVal (drv s') = sys_clock_hw_cycles_per_tick (kern s) - 1 /\
    maxSysTicks (drv s') = 16777215 / defaultLoadVal (drv s') /\
    1 <= maxSysTicks (drv s') /\
    maxLoadValue (drv s') = maxSysTicks (drv s') * defaultLoadVal (drv s') /\
    maxLoadValue (drv s') <= 16777215
      < maxLoadValue (drv s') + defaultLoadVal (drv s') /\
    timerIdleSkew (drv s') = to_uint32 (skew_start hw - skew_end hw) /\
    timerMode (drv s') = TIMER_MODE_PERIODIC.
Proof.
  intros Ht Hc. unfold timer_driver, __ASSERT.
  rewrite (proj2 (Z.leb_le _ 16777216)) by lia. cbn [bind]. rewrite Ht.
  rewrite (to_uint32_id (sys_clock_hw_cycles_per_tick (kern s) - 1))
    by (unfold is_uint32, two32; lia).
  set (c := sys_clock_hw_cycles_per_tick (kern s)) in *.
  set (s1 := sysTickReloadSet (c - 1) s).
  destruct (tickless_init_result hw s1)
    as [s2 [Hi [_ [_ [_ [Hd [Hm [Hml [Hsk [Hmode _]]]]]]]]]].
  { change (strvr (scs s1)) with (c - 1). lia. }
  change (strvr (scs s1)) with (c - 1) in Hd, Hm, Hml.
  rewrite Hi. cbn [bind]. eexists. split; [reflexivity |].
  change (drv (stcsr_write 7 s2)) with (drv s2).
  assert (Hle : (c - 1) * (16777215 / (c - 1)) <= 16777215)
    by (apply Z.mul_div_le; lia).
  assert (Hgt : 16777215 < (c - 1) * Z.succ (16777215 / (c - 1)))
    by (apply Z.mul_succ_div_gt; lia).
  assert (Hq : 1 <= 16777215 / (c - 1)).
  { apply Z.div_le_lower_bound; lia. }
  rewrite to_uint32_id in Hml by (unfold is_uint32, two32; nia).
  rewrite Hd, Hm, Hml, Hsk, Hmode.
  repeat split; try reflexivity; nia.
Qed.

Lemma timer_driver_tickless_constants_witness :
  exists s',
    timer_driver tickless_build
      {| skew_start := 990; skew_dummy := 984; skew_end := 978 |}
      (reset_state 1000) = Ok s' /\
    defaultLoadVal (drv s') = 1000 - 1 /\
    maxSysTicks (drv s') = 16777215 / defaultLoadVal (drv s') /\
    1 <= maxSysTicks (drv s') /\
    maxLoadValue (drv s') = maxSysTicks (drv s') * defaultLoadVal (drv s') /\
    maxLoadValue (drv s') <= 16777215
      < maxLoadValue (drv s') + defaultLoadVal (drv s') /\
    timerIdleSkew (drv s') = to_uint32 (990 - 978) /\
    timerMode (drv s') = TIMER_MODE_PERIODIC.
Proof.
  apply (timer_driver_tickless_constants tickless_build
           {| skew_start := 990; skew_dummy := 984; skew_end := 978 |}
           (reset_state 1000)).
  - reflexivity.
  - simpl. lia.
Defined.



(** ** Ticks that the scheduler has not taken yet *)

Lemma sum_to_closed (k : nat) : 2 * sum_to k = Z.of_nat k * (Z.of_nat k + 1).
Proof.
  induction k as [| k IH].
  - reflexivity.
  - cbn [sum_to]. rewrite Nat2Z.inj_succ. lia.
Qed.

Lemma tick_interrupts_unserviced (cfg : config) (pm : Z -> bool) (k : nat)
    (s : state) :
  CONFIG_TICKLESS_IDLE cfg = true ->
  CONFIG_ADVANCED_POWER_MANAGEMENT cfg = true ->
  idleMode (drv s) = IDLE_NOT_TICKLESS ->
  _SysIdleElapsedTicks (kern s) = 0 ->
  is_uint32 (accumulatedCount (drv s)) ->
  Z.of_nat k < two31 ->
  exists sk,
    tick_interrupts cfg pm k s = Ok sk /\
    _SysIdleElapsedTicks (kern sk) = Z.of_nat k /\
    idleMode (drv sk) = IDLE_NOT_TICKLESS /\
    defaultLoadVal (drv sk) = defaultLoadVal (drv s) /\
    K_Args (kern sk) =
      match k with
      | O => K_Args (kern s)
      | S _ => TICK_EVENT :: K_Args (kern s)
      end /\
    accumulatedCount (drv sk) =
      to_uint32 (accumulatedCount (drv s) + defaultLoadVal (drv s) * sum_to k).
Proof.
  intros Ht Ha Hi He Hu. unfold two31. induction k as [| k IH]; intros Hk.
  - exists s. split; [reflexivity |]. split; [exact He |].
    split; [exact Hi |]. split; [reflexivity |]. split; [reflexivity |].
    cbn [sum_to]. rewrite Z.mul_0_r, Z.add_0_r. symmetry.
    apply to_uint32_id. exact Hu.
  - destruct IH as [sk [Hrun [Hek [Hik [Hdk [Hkk Hak]]]]]];
      [rewrite Nat2Z.inj_succ in Hk; lia |].
    exists (handler_tickless_exit (hw_wrap sk)).
    cbn [tick_interrupts]. rewrite Hrun. cbn [bind]. unfold tick_interrupt.
    split; [apply (handler_tickless_build cfg pm _ Ht Ha) |].
    destruct (handler_tickless_exit_report (hw_wrap sk)) as [Hrep Hq].
    rewrite handler_tickless_exit_drv, Hrep, Hq.
    set (p := set_primask true (hw_wrap sk)).
    assert (Hip : idleMode (drv p) = IDLE_NOT_TICKLESS) by exact Hik.
    destruct (handler_tickless_periodic p Hip) as [Hpe [Hpk Hpi]].
    destruct (handler_tickless_accumulates p) as [Hpa Hpd].
    change (_SysIdleElapsedTicks (kern p))
      with (_SysIdleElapsedTicks (kern sk)) in Hpe, Hpk.
    change (K_Args (kern p)) with (K_Args (kern sk)) in Hpk.
    change (accumulatedCount (drv p)) with (accumulatedCount (drv sk)) in Hpa.
    change (defaultLoadVal (drv p)) with (defaultLoadVal (drv sk)) in Hpa, Hpd.
    rewrite Hek in Hpe, Hpk. rewrite Nat2Z.inj_succ in Hk.
    rewrite to_int32_id in Hpe, Hpk by (unfold is_int32, two31; lia).
    rewrite Hpe, Hdk, Hak in Hpa.
    split; [rewrite Hpe, Nat2Z.inj_succ; reflexivity |].
    split; [exact Hpi |]. split; [rewrite Hpd; exact Hdk |].
    split.
    + rewrite Hpk, Hkk. destruct k as [| j].
      * reflexivity.
      * destruct (Z.eqb_spec (Z.of_nat (S j) + 1) 1) as [E | _];
          [rewrite Nat2Z.inj_succ in E; lia | reflexivity].
    + rewrite Hpa, to_uint32_add_l, to_uint32_add_r.
      rewrite (to_uint32_id (Z.of_nat k + 1))
        by (unfold is_uint32, two32; lia).
      f_equal. cbn [sum_to]. rewrite Nat2Z.inj_succ. ring.
Qed.

(** X13.  With tickless idle built in, periodic tick interrupts that the
    scheduler has not serviced pile up in the elapsed-tick count: after [k]
    of them, starting at zero, the count is [k], exactly one tick event has
    been announced, and the accumulated count has grown by the default
    reload value times [1 + 2 + ... + k], each handler adding the whole
    count again. *)
Theorem unserviced_ticks_announce_once (cfg : config) (pm : Z -> bool)
    (k : nat) (s : state) :
  CONFIG_TICKLESS_IDLE cfg = true ->
  CONFIG_ADVANCED_POWER_MANAGEMENT cfg = true ->
  idleMode (drv s) = IDLE_NOT_TICKLESS ->
  _SysIdleElapsedTicks (kern s) = 0 ->
  is_uint32 (accumulatedCount (drv s)) ->
  (0 < k)%nat ->
  Z.of_nat k < two31 ->
  exists sk,
    tick_interrupts cfg pm k s = Ok sk /\
    _SysIdleElapsedTicks (kern sk) = Z.of_nat k /\
    K_Args (kern sk) = TICK_EVENT :: K_Args (kern s) /\
    accumulatedCount (drv sk) =
      to_uint32 (accumulatedCount (drv s)
                 + defaultLoadVal (drv s) * sum_to k) /\
    2 * sum_to k = Z.of_nat k * (Z.of_nat k + 1).
Proof.
  intros Ht Ha Hi He Hu Hpos Hk.
  destruct (tick_interrupts_unserviced cfg pm k s Ht Ha Hi He Hu Hk)
    as [sk [Hrun [Hek [_ [_ [Hkk Hak]]]]]].
  exists sk. split; [exact Hrun |]. split; [exact Hek |].
  split; [destruct k; [inversion Hpos | exact Hkk] |].
  split; [exact Hak | apply sum_to_closed].
Qed.

Lemma unserviced_ticks_announce_once_witness :
  exists sk,
    tick_interrupts tickless_build (fun _ => true) 5 configured_1000
      = Ok sk /\
    _SysIdleElapsedTicks (kern sk) = 5 /\
    K_Args (kern sk) = [TICK_EVENT] /\
    accumulatedCount (drv sk) = to_uint32 (0 + 999 * 15) /\
    2 * 15 = 5 * (5 + 1).
Proof.
  apply (unserviced_ticks_announce_once tickless_build (fun _ => true) 5
           configured_1000).
  - reflexivity.
  - reflexivity.
  - reflexivity.
  - reflexivity.
  - unfold is_uint32, two32. simpl. lia.
  - lia.
  - unfold two31. simpl. lia.
Defined.

(** ** The timers of the nanokernel-only build *)

Lemma expire_nano_timers_spec (l : list nano_timer) (d : list (Z * Z)) :
  exists expired,
    l = expired ++ fst (expire_nano_timers l d) /\
    Forall (fun t => ticks t = 0) expired /\
    snd (expire_nano_timers l d)
      = rev (map (fun t => (lifo t, userData t)) expired) ++ d /\
    match fst (expire_nano_timers l d) with
    | [] => True
    | t :: _ => ticks t <> 0
    end.
Proof.
  revert d. induction l as [| t l IH]; intros d.
  - exists []. repeat split. constructor.
  - cbn [expire_nano_timers]. destruct (ticks t =? 0) eqn:E.
    + apply Z.eqb_eq in E.
      destruct (IH ((lifo t, userData t) :: d)) as [ex [Hl [Hz [Hd Hh]]]].
      exists (t :: ex). split; [cbn [app]; f_equal; exact Hl |].
      split; [constructor; assumption |].
      split; [| exact Hh].
      rewrite Hd. cbn [map rev]. rewrite <- app_assoc. reflexivity.
    + apply Z.eqb_neq in E. exists []. cbn [fst snd].
      repeat split; [constructor | exact E].
Qed.

Lemma nano_tick_timers (s : state) (t : nano_timer) (l : list nano_timer) :
  _nano_timer_list (kern s) = t :: l ->
  _nano_timer_list (kern (nano_tick s))
    = fst (expire_nano_timers
             ({| ticks := to_uint32 (ticks t - 1); lifo := lifo t;
                 userData := userData t |} :: l) (lifo_data (kern s))) /\
  lifo_data (kern (nano_tick s))
    = snd (expire_nano_timers
             ({| ticks := to_uint32 (ticks t - 1); lifo := lifo t;
                 userData := userData t |} :: l) (lifo_data (kern s))).
Proof.
  intros Hl. unfold nano_tick. rewrite Hl.
  destruct (expire_nano_timers _ _) as [l' d']. split; reflexivity.
Qed.

(** X14.  In the nanokernel-only build the handler announces no tick event
    and counts down the timer at the head of the list only.  A head with two
    ticks or more stays, one tick lower, and nothing expires; a head with one
    tick left expires together with the timers right behind it whose count is
    zero, their data are put on their lifos in list order, and the timer
    then at the head has ticks left. *)
Theorem nanokernel_handler_timers (cfg : config) (pm : Z -> bool)
    (s : state) :
  CONFIG_ADVANCED_POWER_MANAGEMENT cfg = false ->
  CONFIG_MICROKERNEL cfg = false ->
  exists s',
    _timer_int_handler cfg pm s = Ok s' /\
    K_Args (kern s') = K_Args (kern s) /\
    (_nano_timer_list (kern s) = [] ->
     _nano_timer_list (kern s') = [] /\
     lifo_data (kern s') = lifo_data (kern s)) /\
    (forall t l,
        _nano_timer_list (kern s) = t :: l ->
        2 <= ticks t < two32 ->
        _nano_timer_list (kern s')
          = {| ticks := ticks t - 1; lifo := lifo t;
               userData := userData t |} :: l /\
        lifo_data (kern s') = lifo_data (kern s)) /\
    (forall t l,
        _nano_timer_list (kern s) = t :: l ->
        ticks t = 1 ->
        exists rest,
          l = rest ++ _nano_timer_list (kern s') /\
          Forall (fun u => ticks u = 0) rest /\
          lifo_data (kern s')
            = rev (map (fun u => (lifo u, userData u)) rest)
              ++ (lifo t, userData t) :: lifo_data (kern s) /\
          match _nano_timer_list (kern s') with
          | [] => True
          | u :: _ => ticks u <> 0
          end).
Proof.
  intros Ha Hm. unfold _timer_int_handler. rewrite Ha, Hm.
  eexists. split; [reflexivity |].
  set (a := accumulate_tick s).
  assert (Hk : _nano_timer_list (kern a) = _nano_timer_list (kern s))
    by reflexivity.
  assert (Hd : lifo_data (kern a) = lifo_data (kern s)) by reflexivity.
  split; [apply (nano_tick_frame a) |].
  split; [| split].
  - intros Hl. unfold nano_tick. rewrite Hk, Hl. split; reflexivity.
  - intros t l Hl Ht. unfold two32 in Ht. rewrite <- Hk in Hl.
    destruct (nano_tick_timers a t l Hl) as [Hl' Hd'].
    rewrite Hl', Hd', Hd.
    rewrite to_uint32_id by (unfold is_uint32, two32; lia).
    cbn [expire_nano_timers ticks].
    replace (ticks t - 1 =? 0) with false
      by (symmetry; apply Z.eqb_neq; lia).
    split; reflexivity.
  - intros t l Hl Ht. rewrite <- Hk in Hl.
    destruct (nano_tick_timers a t l Hl) as [Hl' Hd'].
    rewrite Hl', Hd', Hd, Ht.
    change (to_uint32 (1 - 1)) with 0.
    cbn [expire_nano_timers ticks lifo userData Z.eqb].
    apply expire_nano_timers_spec.
Qed.

Lemma nanokernel_handler_timers_witness :
  exists s',
    _timer_int_handler nanokernel_build (fun _ => false) three_timers
      = Ok s' /\
    K_Args (kern s') = [] /\
    _nano_timer_list (kern s')
      = [ {| ticks := 3; lifo := 9; userData := 44 |} ] /\
    lifo_data (kern s') = [ (8, 43); (7, 42) ].
Proof.
  destruct (nanokernel_handler_timers nanokernel_build (fun _ => false)
              three_timers eq_refl eq_refl)
    as [s' [Hx [Hk _]]].
  exists s'. split; [exact Hx |].
  vm_compute in Hx. injection Hx as <-.
  repeat split; reflexivity.
Defined.

(** ** A clamped idle that runs to its end *)

(** X15.  When the request is clamped, being [-1] or above [maxSysTicks] as
    an unsigned value, and the programmed interval expires, the handler
    reports [maxSysTicks] elapsed ticks, one more than the stored count, and
    returns the timer to the periodic mode with the default reload value. *)
Theorem clamped_idle_reports_max (cfg : config) (pm : Z -> bool) (s : state)
    (n : Z) :
  CONFIG_TICKLESS_IDLE cfg = true ->
  CONFIG_ADVANCED_POWER_MANAGEMENT cfg = true ->
  1 <= maxSysTicks (drv s) < two31 ->
  n = -1 \/ maxSysTicks (drv s) < to_uint32 n ->
  exists s',
    _timer_int_handler cfg pm (hw_expire (_timer_idle_enter n s)) = Ok s' /\
    _SysIdleElapsedTicks (kern s') = maxSysTicks (drv s) /\
    timerMode (drv s') = TIMER_MODE_PERIODIC /\
    sysTickReloadGet s' = defaultLoadVal (drv s).
Proof.
  unfold two31. intros Ht Ha Hm Hn.
  assert (Hc : clamps n s = true).
  { unfold clamps. apply orb_true_iff. destruct Hn as [-> | Hgt].
    - left. reflexivity.
    - right. rewrite Z.gtb_ltb. apply Z.ltb_lt. exact Hgt. }
  rewrite (handler_tickless_build cfg pm _ Ht Ha).
  eexists. split; [reflexivity |].
  destruct (enter_modes n s) as [Hmode Hidle].
  destruct (enter_constants n s) as [Hdef _].
  pose proof (enter_idleOrigTicks n s) as Hticks. rewrite Hc in Hticks.
  rewrite to_uint32_id in Hticks by (unfold is_uint32, two32; lia).
  destruct (handler_tickless_exit_report (hw_expire (_timer_idle_enter n s)))
    as [Hrep _].
  unfold sysTickReloadGet.
  rewrite handler_tickless_exit_drv, handler_tickless_exit_scs, Hrep.
  set (p := set_primask true (hw_expire (_timer_idle_enter n s))).
  assert (Hd : drv p = drv (_timer_idle_enter n s)) by reflexivity.
  rewrite <- Hd in Hmode, Hidle, Hdef, Hticks.
  destruct (handler_tickless_idle p Hidle) as [He _].
  destruct (handler_tickless_one_shot p Hmode) as [Hr _].
  rewrite He, Hr, Hticks, Hdef.
  replace (maxSysTicks (drv s) - 1 + 1) with (maxSysTicks (drv s)) by lia.
  rewrite to_uint32_id by (unfold is_uint32, two32; lia).
  rewrite to_int32_id by (unfold is_int32, two31; lia).
  split; [reflexivity |]. split; [apply handler_tickless_mode | reflexivity].
Qed.

Lemma clamped_idle_reports_max_witness :
  exists s',
    _timer_int_handler tickless_build (fun _ => true)
      (hw_expire (_timer_idle_enter (-7) configured_1000)) = Ok s' /\
    _SysIdleElapsedTicks (kern s') = 16794 /\
    timerMode (drv s') = TIMER_MODE_PERIODIC /\
    sysTickReloadGet s' = 999.
Proof.
  apply (clamped_idle_reports_max tickless_build (fun _ => true)
           configured_1000 (-7)).
  - reflexivity.
  - reflexivity.
  - unfold two31. simpl. lia.
  - right. vm_compute. reflexivity.
Defined.

(** ** The read within a tick *)

(** X16.  While the counter counts down within one period and the sum does
    not pass 2^32, [timer_read] grows by exactly the cycles counted; when
    the counter has wrapped and reloaded and the handler has not run yet,
    [timer_read] is back at the accumulated count alone. *)
Theorem timer_read_within_tick (s : state) (c1 c2 : Z) :
  is_uint32 (accumulatedCount (drv s)) ->
  0 <= c2 <= c1 ->
  c1 <= strvr (scs s) ->
  accumulatedCount (drv s) + strvr (scs s) < two32 ->
  timer_read (hw_countdown c2 s) - timer_read (hw_countdown c1 s) = c1 - c2 /\
  timer_read (hw_countdown c1 s) <= timer_read (hw_countdown c2 s) /\
  timer_read (hw_wrap s) = accumulatedCount (drv s).
Proof.
  unfold is_uint32, two32. intros Ha Hc Hr Hfit.
  assert (Hread : forall c, 0 <= c <= strvr (scs s) ->
             timer_read (hw_countdown c s)
               = accumulatedCount (drv s) + (strvr (scs s) - c)).
  { intros c Hcr. unfold timer_read.
    change (strvr (scs (hw_countdown c s))) with (strvr (scs s)).
    change (stcvr (scs (hw_countdown c s))) with c.
    change (accumulatedCount (drv (hw_countdown c s)))
      with (accumulatedCount (drv s)).
    rewrite to_uint32_add_r.
    apply to_uint32_id. unfold is_uint32, two32. lia. }
  rewrite (Hread c1), (Hread c2) by lia.
  split; [lia |]. split; [lia |].
  unfold timer_read.
  change (strvr (scs (hw_wrap s))) with (strvr (scs s)).
  change (stcvr (scs (hw_wrap s))) with (strvr (scs s)).
  change (accumulatedCount (drv (hw_wrap s))) with (accumulatedCount (drv s)).
  rewrite Z.sub_diag. change (to_uint32 0) with 0. rewrite Z.add_0_r.
  apply to_uint32_id. unfold is_uint32, two32. lia.
Qed.

Lemma timer_read_within_tick_witness :
  timer_read (hw_countdown 100 configured_1000)
    - timer_read (hw_countdown 600 configured_1000) = 600 - 100 /\
  timer_read (hw_countdown 600 configured_1000)
    <= timer_read (hw_countdown 100 configured_1000) /\
  timer_read (hw_wrap configured_1000) = 0.
Proof.
  apply (timer_read_within_tick configured_1000 600 100).
  - unfold is_uint32, two32. simpl. lia.
  - lia.
  - simpl. lia.
  - unfold two32. simpl. lia.
Defined.
